(** * Verification of the dashboard front end

    A shallow embedding of the TypeScript sources of the front end
    (the axios wrapper [lib/api.ts] and the page components) together
    with the properties its specification states about them.

    Layout: the first part embeds the code, function by function and
    under the names the source uses; the second part states and proves
    the properties. *)

From Stdlib Require Import ZArith Lia Floats.
From stdpp Require Import base strings gmap list pretty.

Set Warnings "-inexact-float,-register-all".
Set Default Proof Using "Type".
Open Scope Z_scope.

(* ===================================================================== *)
(** * Part I: the embedding *)
(* ===================================================================== *)

(** ** JavaScript values

    Response bodies, request bodies and toast contents are JavaScript
    values.  Numbers are IEEE doubles, strings are byte strings (the
    Chinese literals of the source are kept as their UTF-8 bytes). *)

Inductive JsValue : Type :=
| JUndefined
| JNull
| JBool (b : bool)
| JNum (x : float)
| JStr (s : string)
| JArr (items : list JsValue)
| JObj (props : list (string * JsValue))
| JBlob (content : string).

(** ECMAScript [ToBoolean]: what [if (v)] and [v || w] test. *)
Definition truthy (v : JsValue) : bool :=
  match v with
  | JUndefined | JNull => false
  | JBool b => b
  | JNum x => negb (PrimFloat.is_zero x || PrimFloat.is_nan x)
  | JStr s => negb (String.eqb s "")
  | JArr _ | JObj _ | JBlob _ => true
  end.

(** [a || b] *)
Definition js_or (a b : JsValue) : JsValue := if truthy a then a else b.

(** Own-property lookup in an object literal or a parsed JSON object. *)
Fixpoint own {A} (table : list (string * A)) (key : string) : option A :=
  match table with
  | [] => None
  | (k, a) :: rest => if String.eqb k key then Some a else own rest key
  end.

(** [v?.key] for a key that no built-in prototype defines: [undefined]
    on [undefined], [null] and on every value without that own
    property. *)
Definition opt_get (v : JsValue) (key : string) : JsValue :=
  match v with
  | JObj props => default JUndefined (own props key)
  | _ => JUndefined
  end.

(** A template literal [`${n}`] for an integer-valued number [n]: record
    ids are integers, which JavaScript prints in plain decimal digits
    (below 10^21 in magnitude). *)
Definition Number_toString (n : Z) : string := pretty n.

(** ** The browser state the client touches *)

Record Browser : Type := mkBrowser {
  localStorage : gmap string string;
  location_href : string
}.

(** [localStorage.getItem(key)]: the stored string, or [null]. *)
Definition getItem (b : Browser) (key : string) : option string :=
  localStorage b !! key.

(** [localStorage.removeItem(key)] *)
Definition removeItem (key : string) (b : Browser) : Browser :=
  mkBrowser (delete key (localStorage b)) (location_href b).

(** [window.location.href = url] *)
Definition set_location_href (url : string) (b : Browser) : Browser :=
  mkBrowser (localStorage b) url.

(** ** axios: requests, responses, errors *)

Inductive HttpMethod : Type := GET | POST | DELETE.

Record RequestConfig : Type := mkConfig {
  cfg_method : HttpMethod;
  cfg_url : string;
  cfg_data : JsValue;                  (* request body, [undefined] if none *)
  cfg_headers : gmap string string;
  cfg_timeout : Z;
  cfg_responseType : option string
}.

Record AxiosResponse : Type := mkResponse {
  status : Z;
  data : JsValue
}.

(** An [AxiosError]; [response] is absent when no answer arrived
    (network failure, timeout). *)
Record AxiosError : Type := mkError {
  response : option AxiosResponse
}.

(** The state of a settled promise. *)
Inductive Settled (A : Type) : Type :=
| Resolved (a : A)
| Rejected (error : AxiosError).
Arguments Resolved {A} a.
Arguments Rejected {A} error.

(** What the network hands back for one request. *)
Inductive NetOutcome : Type :=
| NetResponse (r : AxiosResponse)
| NetFailure.

(** axios settles a received response with its default [validateStatus]
    (2xx resolves, everything else rejects with the response attached);
    [axios.create] below does not override it. *)
Definition validateStatus (st : Z) : bool := (200 <=? st) && (st <? 300).

Definition settle (o : NetOutcome) : Settled AxiosResponse :=
  match o with
  | NetResponse r =>
      if validateStatus (status r) then Resolved r
      else Rejected (mkError (Some r))
  | NetFailure => Rejected (mkError None)
  end.

(** ** ApiClient: construction and interceptors *)

Module ApiClient.

(** The per-call options a method passes to [client.get/post/delete]. *)
Record CallOptions : Type := mkOptions {
  opt_headers : gmap string string;
  opt_timeout : option Z;
  opt_responseType : option string
}.

Definition no_options : CallOptions := mkOptions ∅ None None.

(** [axios.create({ baseURL, timeout: 30000, headers: {'Content-Type':
    'application/json'} })] merged with the options of one call: the
    call's own entries win. *)
Definition create_config (m : HttpMethod) (url : string) (body : JsValue)
    (o : CallOptions) : RequestConfig :=
  mkConfig m url body
    (opt_headers o ∪ {[ "Content-Type" := "application/json" ]})
    (default 30000 (opt_timeout o))
    (opt_responseType o).

(** Request interceptor:
<<
    const token = localStorage.getItem('access_token');
    if (token) { config.headers.Authorization = `Bearer ${token}`; }
    return config;
>> *)
Definition request_interceptor (b : Browser) (config : RequestConfig)
  : RequestConfig :=
  match getItem b "access_token" with
  | Some token =>
      if truthy (JStr token) then
        mkConfig (cfg_method config) (cfg_url config) (cfg_data config)
          (<[ "Authorization" := "Bearer " +:+ token ]> (cfg_headers config))
          (cfg_timeout config) (cfg_responseType config)
      else config
  | None => config
  end.

(** Response interceptor, success side: [(response) => response]. *)
Definition response_onFulfilled (r : AxiosResponse) : AxiosResponse := r.

(** [error.response?.status === 401] *)
Definition is_unauthorized (error : AxiosError) : bool :=
  match response error with
  | Some r => status r =? 401
  | None => false
  end.

(** Response interceptor, error side:
<<
    if (error.response?.status === 401) {
      localStorage.removeItem('access_token');
      window.location.href = '/login';
    }
    return Promise.reject(error);
>> *)
Definition response_onRejected (b : Browser) (error : AxiosError)
  : Browser * Settled AxiosResponse :=
  if is_unauthorized error then
    (set_location_href "/login" (removeItem "access_token" b), Rejected error)
  else (b, Rejected error).

(** *** The client as a state-and-error monad

    A call runs in a world made of the browser state and the log of the
    requests put on the wire; it ends resolved with a value or rejected
    with an error, which [await] propagates. *)

Record World : Type := mkWorld {
  browser : Browser;
  sent : list RequestConfig
}.

Definition M (A : Type) : Type := World -> World * Settled A.

Definition ret {A} (a : A) : M A := fun w => (w, Resolved a).

Definition bind {A B} (m : M A) (k : A -> M B) : M B :=
  fun w =>
    match m w with
    | (w', Resolved a) => k a w'
    | (w', Rejected e) => (w', Rejected e)
    end.

Notation "'const' x ':=' 'await' m ; k" := (bind m (fun x => k))
  (at level 10, x name, m at level 100, k at level 200,
   format "'[v' 'const'  x  ':='  'await'  m ; '/' k ']'").

(** A call of one public method with its arguments. *)
Inductive Call : Type :=
| Login (username password : string)
| GetProfile
| GetAlgorithms
| GetAlgorithmInfo (algorithmName : string)
| GetAlgorithmParameters (algorithmName : string)
| GetAlgorithmComparison
| GetDatasets
| UploadDataset (formData : JsValue)
| GetDataset (datasetId : Z)
| PreviewDataset (datasetId : Z) (limit : option Z)
| DeleteDataset (datasetId : Z)
| ValidateDataset (datasetId : Z)
| GetDatasetStatistics
| CreateTask (taskData : JsValue)
| GetTasks
| GetTask (taskId : Z)
| StartTask (taskId : Z)
| CancelTask (taskId : Z)
| DeleteTask (taskId : Z)
| GetRunningTasks
| GetTaskStatistics
| GetTaskServiceStatus
| GetResults
| GetResult (resultId : Z)
| CompareResults (resultIds : JsValue)
| ExportResult (resultId : Z) (format : option string)
| DeleteResult (resultId : Z)
| GetResultStatistics.

Section Methods.

(** The remote service: the answer to each request put on the wire. *)
Variable backend : RequestConfig -> NetOutcome.

(** One request through the instance: request interceptor, the wire,
    axios's settling, response interceptor. *)
Definition request (config : RequestConfig) : M AxiosResponse :=
  fun w =>
    let config' := request_interceptor (browser w) config in
    let w1 := mkWorld (browser w) (sent w ++ [config']) in
    match settle (backend config') with
    | Resolved r => (w1, Resolved (response_onFulfilled r))
    | Rejected e =>
        let (b', p) := response_onRejected (browser w1) e in
        (mkWorld b' (sent w1), p)
    end.

Definition client_get (url : string) (o : CallOptions) : M AxiosResponse :=
  request (create_config GET url JUndefined o).

Definition client_post (url : string) (body : JsValue) (o : CallOptions)
  : M AxiosResponse :=
  request (create_config POST url body o).

Definition client_delete (url : string) : M AxiosResponse :=
  request (create_config DELETE url JUndefined no_options).

(** *** The public methods, in source order *)

Definition login (username password : string) : M JsValue :=
  const response := await client_post "/auth/login"
    (JObj [("username", JStr username); ("password", JStr password)])
    no_options ;
  ret (data response).

Definition getProfile : M JsValue :=
  const response := await client_get "/auth/profile" no_options ;
  ret (data response).

Definition getAlgorithms : M JsValue :=
  const response := await client_get "/algorithms" no_options ;
  ret (data response).

Definition getAlgorithmInfo (algorithmName : string) : M JsValue :=
  const response := await client_get ("/algorithms/" +:+ algorithmName +:+ "/info")
    no_options ;
  ret (data response).

Definition getAlgorithmParameters (algorithmName : string) : M JsValue :=
  const response := await client_get ("/algorithms/" +:+ algorithmName +:+ "/parameters")
    no_options ;
  ret (data response).

Definition getAlgorithmComparison : M JsValue :=
  const response := await client_get "/algorithms/comparison" no_options ;
  ret (data response).

Definition getDatasets : M JsValue :=
  const response := await client_get "/datasets" no_options ;
  ret (data response).

Definition uploadDataset (formData : JsValue) : M JsValue :=
  const response := await client_post "/datasets/upload" formData
    (mkOptions {[ "Content-Type" := "multipart/form-data" ]} (Some 60000) None) ;
  ret (data response).

Definition getDataset (datasetId : Z) : M JsValue :=
  const response := await client_get ("/datasets/" +:+ Number_toString datasetId)
    no_options ;
  ret (data response).

(** [limit: number = 10]: an omitted argument takes the default. *)
Definition previewDataset (datasetId : Z) (limit : option Z) : M JsValue :=
  let limit := default 10 limit in
  const response := await client_get ("/datasets/" +:+ Number_toString datasetId
                          +:+ "/preview?limit=" +:+ Number_toString limit)
    no_options ;
  ret (data response).

Definition deleteDataset (datasetId : Z) : M JsValue :=
  const response := await client_delete ("/datasets/" +:+ Number_toString datasetId) ;
  ret (data response).

Definition validateDataset (datasetId : Z) : M JsValue :=
  const response := await client_post ("/datasets/" +:+ Number_toString datasetId
                           +:+ "/validate") JUndefined no_options ;
  ret (data response).

Definition getDatasetStatistics : M JsValue :=
  const response := await client_get "/datasets/statistics" no_options ;
  ret (data response).

Definition createTask (taskData : JsValue) : M JsValue :=
  const response := await client_post "/tasks" taskData no_options ;
  ret (data response).

Definition getTasks : M JsValue :=
  const response := await client_get "/tasks" no_options ;
  ret (data response).

Definition getTask (taskId : Z) : M JsValue :=
  const response := await client_get ("/tasks/" +:+ Number_toString taskId) no_options ;
  ret (data response).

Definition startTask (taskId : Z) : M JsValue :=
  const response := await client_post ("/tasks/" +:+ Number_toString taskId +:+ "/start")
    JUndefined no_options ;
  ret (data response).

Definition cancelTask (taskId : Z) : M JsValue :=
  const response := await client_post ("/tasks/" +:+ Number_toString taskId +:+ "/cancel")
    JUndefined no_options ;
  ret (data response).

Definition deleteTask (taskId : Z) : M JsValue :=
  const response := await client_delete ("/tasks/" +:+ Number_toString taskId) ;
  ret (data response).

Definition getRunningTasks : M JsValue :=
  const response := await client_get "/tasks/running" no_options ;
  ret (data response).

Definition getTaskStatistics : M JsValue :=
  const response := await client_get "/tasks/statistics" no_options ;
  ret (data response).

Definition getTaskServiceStatus : M JsValue :=
  const response := await client_get "/tasks/service/status" no_options ;
  ret (data response).

Definition getResults : M JsValue :=
  const response := await client_get "/results" no_options ;
  ret (data response).

Definition getResult (resultId : Z) : M JsValue :=
  const response := await client_get ("/results/" +:+ Number_toString resultId)
    no_options ;
  ret (data response).

(** [resultIds] is the array value, sent as it is under [result_ids]. *)
Definition compareResults (resultIds : JsValue) : M JsValue :=
  const response := await client_post "/results/comparison"
    (JObj [("result_ids", resultIds)]) no_options ;
  ret (data response).

(** [format: string = 'csv'] *)
Definition exportResult (resultId : Z) (format : option string) : M JsValue :=
  let format := default "csv" format in
  const response := await client_get ("/results/" +:+ Number_toString resultId
                          +:+ "/export?format=" +:+ format)
    (mkOptions ∅ None (Some "blob")) ;
  ret (data response).

Definition deleteResult (resultId : Z) : M JsValue :=
  const response := await client_delete ("/results/" +:+ Number_toString resultId) ;
  ret (data response).

Definition getResultStatistics : M JsValue :=
  const response := await client_get "/results/statistics" no_options ;
  ret (data response).

(** Dispatch of a call to the method it names. *)
Definition invoke (c : Call) : M JsValue :=
  match c with
  | Login u p => login u p
  | GetProfile => getProfile
  | GetAlgorithms => getAlgorithms
  | GetAlgorithmInfo a => getAlgorithmInfo a
  | GetAlgorithmParameters a => getAlgorithmParameters a
  | GetAlgorithmComparison => getAlgorithmComparison
  | GetDatasets => getDatasets
  | UploadDataset f => uploadDataset f
  | GetDataset i => getDataset i
  | PreviewDataset i l => previewDataset i l
  | DeleteDataset i => deleteDataset i
  | ValidateDataset i => validateDataset i
  | GetDatasetStatistics => getDatasetStatistics
  | CreateTask t => createTask t
  | GetTasks => getTasks
  | GetTask i => getTask i
  | StartTask i => startTask i
  | CancelTask i => cancelTask i
  | DeleteTask i => deleteTask i
  | GetRunningTasks => getRunningTasks
  | GetTaskStatistics => getTaskStatistics
  | GetTaskServiceStatus => getTaskServiceStatus
  | GetResults => getResults
  | GetResult i => getResult i
  | CompareResults l => compareResults l
  | ExportResult i f => exportResult i f
  | DeleteResult i => deleteResult i
  | GetResultStatistics => getResultStatistics
  end.

End Methods.

(** The REST surface as a table: verb and path of each call.  This is
    the statement side of the comparison with the methods above. *)
Definition endpoint (c : Call) : HttpMethod * string :=
  match c with
  | Login _ _ => (POST, "/auth/login")
  | GetProfile => (GET, "/auth/profile")
  | GetAlgorithms => (GET, "/algorithms")
  | GetAlgorithmInfo a => (GET, "/algorithms/" +:+ a +:+ "/info")
  | GetAlgorithmParameters a => (GET, "/algorithms/" +:+ a +:+ "/parameters")
  | GetAlgorithmComparison => (GET, "/algorithms/comparison")
  | GetDatasets => (GET, "/datasets")
  | UploadDataset _ => (POST, "/datasets/upload")
  | GetDataset i => (GET, "/datasets/" +:+ Number_toString i)
  | PreviewDataset i l =>
      (GET, "/datasets/" +:+ Number_toString i +:+ "/preview?limit="
            +:+ Number_toString (default 10 l))
  | DeleteDataset i => (DELETE, "/datasets/" +:+ Number_toString i)
  | ValidateDataset i => (POST, "/datasets/" +:+ Number_toString i +:+ "/validate")
  | GetDatasetStatistics => (GET, "/datasets/statistics")
  | CreateTask _ => (POST, "/tasks")
  | GetTasks => (GET, "/tasks")
  | GetTask i => (GET, "/tasks/" +:+ Number_toString i)
  | StartTask i => (POST, "/tasks/" +:+ Number_toString i +:+ "/start")
  | CancelTask i => (POST, "/tasks/" +:+ Number_toString i +:+ "/cancel")
  | DeleteTask i => (DELETE, "/tasks/" +:+ Number_toString i)
  | GetRunningTasks => (GET, "/tasks/running")
  | GetTaskStatistics => (GET, "/tasks/statistics")
  | GetTaskServiceStatus => (GET, "/tasks/service/status")
  | GetResults => (GET, "/results")
  | GetResult i => (GET, "/results/" +:+ Number_toString i)
  | CompareResults _ => (POST, "/results/comparison")
  | ExportResult i f =>
      (GET, "/results/" +:+ Number_toString i +:+ "/export?format="
            +:+ default "csv" f)
  | DeleteResult i => (DELETE, "/results/" +:+ Number_toString i)
  | GetResultStatistics => (GET, "/results/statistics")
  end.

End ApiClient.

(** ** Page components as interaction programs

    A handler of a page is a program over three kinds of interaction:
    effects on what the user sees, awaited asynchronous operations, and
    the browser's interval timers.  [await] suspends the handler; the
    event loop below resumes it when the awaited promise settles. *)

(** What can be awaited: a method of the [apiClient] singleton, or the
    [login] function of [useAuth()] (the authentication context, which
    is outside these sources and only awaited here). *)
Inductive Op : Type :=
| api (c : ApiClient.Call)
| auth_login (username password : string).

(** A value caught by [catch]: the rejection of an awaited promise, or a
    [TypeError] raised while reading a property of [null]/[undefined]. *)
Inductive Thrown : Type :=
| AxiosErr (e : AxiosError)
| TypeError.

(** Effects on the user interface. *)
Inductive Ui : Type :=
| message_error (content : JsValue)      (* antd toast, error *)
| message_success (content : JsValue)    (* antd toast, success *)
| console_error (label : string) (error : Thrown)
| setState (setter : string) (value : JsValue)   (* a [useState] setter *)
| ui_other (what : string).              (* form reset, router, DOM *)

(** A handler body.  [Await ops k] is [await] of one operation or of
    [Promise.all] over several: the operations start, the handler
    suspends, and [k] receives the values in order or the first
    rejection.  [SetInterval] passes the new timer's id on. *)
Inductive Prog : Type :=
| Return
| ReturnCleanup (cleanup : Prog)         (* an effect returns a closure *)
| Do (u : Ui) (k : Prog)
| Await (ops : list Op) (k : Settled (list JsValue) -> Prog)
| Spawn (callee : Prog) (k : Prog)       (* [f()] of an async [f], not awaited *)
| SetInterval (callback : Prog) (ms : Z) (k : Z -> Prog)
| ClearInterval (id : Z) (k : Prog).

(** Statements of a handler body, in continuation-passing style: a
    block takes what follows it; a block inside [try] also takes the
    [catch] clause it may jump to. *)
Definition Block : Type := Prog -> Prog.
Definition TryBlock : Type := (Thrown -> Prog) -> Prog -> Prog.

Definition does (us : list Ui) : Block := fun k => foldr Do k us.
Definition spawn (callee : Prog) : Block := fun k => Spawn callee k.
Definition then_ (a b : Block) : Block := fun k => a (b k).
Definition no_throw (b : Block) : TryBlock := fun _ k => b k.

(** [v.key] inside [try]: a [TypeError] on [null] and [undefined]. *)
Definition member (v : JsValue) (key : string) (body : JsValue -> TryBlock)
  : TryBlock :=
  fun throw k =>
    match v with
    | JUndefined | JNull => throw TypeError
    | _ => body (opt_get v key) throw k
    end.

(** [try { const r = await op; body(r) } catch (e) { handler(e) }
     finally { fin }], followed by [k]. *)
Definition try_await (op : Op) (body : JsValue -> TryBlock)
    (handler : Thrown -> Block) (fin : Block) : Block :=
  fun k =>
    Await [op] (fun settled =>
      match settled with
      | Resolved vs =>
          body (default JUndefined (head vs))
               (fun t => handler t (fin k)) (fin k)
      | Rejected e => handler (AxiosErr e) (fin k)
      end).

(** The same around [await Promise.all([...])]. *)
Definition try_await_all (ops : list Op) (body : list JsValue -> TryBlock)
    (handler : Thrown -> Block) (fin : Block) : Block :=
  fun k =>
    Await ops (fun settled =>
      match settled with
      | Resolved vs => body vs (fun t => handler t (fin k)) (fin k)
      | Rejected e => handler (AxiosErr e) (fin k)
      end).

Definition no_finally : Block := fun k => k.

(** [error?.response?.data?.message] *)
Definition error_message (error : Thrown) : JsValue :=
  match error with
  | AxiosErr e =>
      match response e with
      | Some r => opt_get (data r) "message"
      | None => JUndefined
      end
  | TypeError => JUndefined
  end.

(** ** The event loop

    The world a page runs in: the operations it has started (the index
    of an operation in [started] is its promise), the suspended
    handlers, the browser's clock and interval timers, the effects shown
    so far and the cleanup closure of the mounted effect. *)

(** An interval timer: its period, its callback and the time of its
    next firing, in milliseconds. *)
Record Timer : Type := mkTimer {
  period : Z;
  callback : Prog;
  due : Z
}.

Record Suspended : Type := mkSuspended {
  awaiting : list (nat * option JsValue);   (* promise, value once resolved *)
  resume : Settled (list JsValue) -> Prog
}.

Record World : Type := mkWorld {
  started : list Op;
  suspended : list Suspended;
  clock : Z;                                (* milliseconds *)
  timers : gmap Z Timer;
  next_timer : Z;
  shown : list Ui;
  cleanup : option Prog
}.

(** Timer ids are positive integers, handed out in increasing order. *)
Definition initial_world : World := mkWorld [] [] 0 ∅ 1 [] None.

Definition show (u : Ui) (w : World) : World :=
  mkWorld (started w) (suspended w) (clock w) (timers w) (next_timer w)
          (shown w ++ [u]) (cleanup w).

Definition suspend (ops : list Op) (k : Settled (list JsValue) -> Prog)
    (w : World) : World :=
  let promises := seq (length (started w)) (length ops) in
  mkWorld (started w ++ ops)
          (suspended w ++ [mkSuspended (map (fun p => (p, None)) promises) k])
          (clock w) (timers w) (next_timer w) (shown w) (cleanup w).

(** [setInterval(callback, ms)]: first due [ms] from now. *)
Definition add_timer (callback : Prog) (ms : Z) (w : World) : World :=
  mkWorld (started w) (suspended w) (clock w)
          (<[ next_timer w := mkTimer ms callback (clock w + ms) ]> (timers w))
          (next_timer w + 1) (shown w) (cleanup w).

(** [clearInterval(id)] *)
Definition remove_timer (id : Z) (w : World) : World :=
  mkWorld (started w) (suspended w) (clock w) (delete id (timers w))
          (next_timer w) (shown w) (cleanup w).

Definition set_cleanup (c : option Prog) (w : World) : World :=
  mkWorld (started w) (suspended w) (clock w) (timers w) (next_timer w)
          (shown w) c.

Definition set_suspended (s : list Suspended) (w : World) : World :=
  mkWorld (started w) s (clock w) (timers w) (next_timer w) (shown w)
          (cleanup w).

(** The browser fires timer [id] at its due time: the clock moves on to
    that time and the timer is due again one period later. *)
Definition fire_timer (id : Z) (t : Timer) (w : World) : World :=
  mkWorld (started w) (suspended w) (Z.max (clock w) (due t))
          (<[ id := mkTimer (period t) (callback t) (due t + period t) ]>
             (timers w))
          (next_timer w) (shown w) (cleanup w).

(** Run a program until it returns or suspends at an [await]. *)
Fixpoint exec (p : Prog) (w : World) : World :=
  match p with
  | Return => w
  | ReturnCleanup c => set_cleanup (Some c) w
  | Do u k => exec k (show u w)
  | Await ops k =>
      match ops with
      | [] => exec (k (Resolved [])) w
      | _ => suspend ops k w
      end
  | Spawn callee k => exec k (exec callee w)
  | SetInterval cb ms k => exec (k (next_timer w)) (add_timer cb ms w)
  | ClearInterval id k => exec k (remove_timer id w)
  end.

(** ** Settling of a promise

    A handler suspended on [await Promise.all([...])] resumes rejected
    at the first rejection, and resolved once every promise it awaits
    has a value. *)

Definition unresolved (a : nat * option JsValue) (p : nat) : bool :=
  match snd a with
  | None => Nat.eqb (fst a) p
  | Some _ => false
  end.

Definition waits_for (p : nat) (s : Suspended) : bool :=
  existsb (fun a => unresolved a p) (awaiting s).

Definition record_value (p : nat) (v : JsValue)
    (aw : list (nat * option JsValue)) : list (nat * option JsValue) :=
  map (fun a => if unresolved a p then (fst a, Some v) else a) aw.

Fixpoint all_values (aw : list (nat * option JsValue)) : option (list JsValue) :=
  match aw with
  | [] => Some []
  | (_, Some v) :: rest =>
      match all_values rest with
      | Some vs => Some (v :: vs)
      | None => None
      end
  | (_, None) :: _ => None
  end.

(** Split the suspended handlers at the first one awaiting [p]. *)
Fixpoint find_waiting (p : nat) (ss : list Suspended)
  : option (list Suspended * Suspended * list Suspended) :=
  match ss with
  | [] => None
  | s :: rest =>
      if waits_for p s then Some ([], s, rest)
      else
        match find_waiting p rest with
        | Some (before, s', after) => Some (s :: before, s', after)
        | None => None
        end
  end.

Definition settle_promise (p : nat) (outcome : Settled JsValue) (w : World)
  : World :=
  match find_waiting p (suspended w) with
  | None => w
  | Some (before, s, after) =>
      match outcome with
      | Rejected e =>
          exec (resume s (Rejected e)) (set_suspended (before ++ after) w)
      | Resolved v =>
          let aw := record_value p v (awaiting s) in
          match all_values aw with
          | Some vs =>
              exec (resume s (Resolved vs)) (set_suspended (before ++ after) w)
          | None =>
              set_suspended (before ++ mkSuspended aw (resume s) :: after) w
          end
      end
  end.

(** ** Pages and their events *)

Record Page : Type := mkPage {
  Action : Type;                          (* what the user can trigger *)
  effect : Prog;                          (* [useEffect(..., [])] body *)
  on_action : Action -> Prog
}.

Inductive Event (A : Type) : Type :=
| Mount                                   (* React mounts the page *)
| Unmount                                 (* React unmounts the page *)
| Fire (id : Z)                           (* the browser fires a timer *)
| User (a : A)                            (* the user acts *)
| Settle (p : nat) (outcome : Settled JsValue).   (* a promise settles *)
Arguments Mount {A}.
Arguments Unmount {A}.
Arguments Fire {A} id.
Arguments User {A} a.
Arguments Settle {A} p outcome.

Definition step (page : Page) (w : World) (ev : Event (Action page)) : World :=
  match ev with
  | Mount => exec (effect page) w
  | Unmount =>
      match cleanup w with
      | Some c => exec c (set_cleanup None w)
      | None => w
      end
  | Fire id =>
      match timers w !! id with
      | Some t => exec (callback t) (fire_timer id t w)
      | None => w
      end
  | User a => exec (on_action page a) w
  | Settle p outcome => settle_promise p outcome w
  end.

Definition run (page : Page) (evs : list (Event (Action page))) (w : World)
  : World :=
  fold_left (step page) evs w.

(** ** Object literals used as lookup tables

    [table[key]] on an object literal finds an own property first and
    then walks to [Object.prototype], whose members are all truthy
    (functions, and the prototype object itself under [__proto__]). *)

Definition Object_prototype_keys : list string :=
  ["constructor"; "hasOwnProperty"; "isPrototypeOf"; "propertyIsEnumerable";
   "toLocaleString"; "toString"; "valueOf"; "__proto__";
   "__defineGetter__"; "__defineSetter__"; "__lookupGetter__";
   "__lookupSetter__"].

Definition inherited (key : string) : bool :=
  existsb (String.eqb key) Object_prototype_keys.

(** The value of [table[key] || fallback], for a table of objects: an
    entry of the table, a member of [Object.prototype], or the
    fallback. *)
Inductive Looked (A : Type) : Type :=
| Entry (a : A)
| Builtin (key : string).
Arguments Entry {A} a.
Arguments Builtin {A} key.

Definition lookup_or {A} (table : list (string * A)) (key : string)
    (fallback : A) : Looked A :=
  match own table key with
  | Some a => Entry a
  | None => if inherited key then Builtin key else Entry fallback
  end.

(** The tag a status renders to; a property read from a built-in
    ([config.color] on a function) is [undefined]. *)
Record Tag : Type := mkTag {
  tag_color : option string;
  tag_text : option string
}.

(** ** The pages

    Handlers are transcribed statement by statement.  A handler closes
    over the view state of the render that created it; where a handler
    reads such state ([selectedAlgorithm], the auth flags) the value is
    a parameter. *)

(** A timer id as a JavaScript number. *)
Definition js_int (n : Z) : JsValue := JNum (PrimFloat.of_uint63 (Uint63.of_Z n)).

(** [v?.slice(0, 5)] inside [try]. *)
Definition opt_slice_0_5 (v : JsValue) (body : JsValue -> TryBlock) : TryBlock :=
  fun throw k =>
    match v with
    | JUndefined | JNull => body JUndefined throw k
    | JArr items => body (JArr (take 5 items)) throw k
    | JStr s => body (JStr (String.substring 0 5 s)) throw k
    | JBlob b => body (JBlob (String.substring 0 5 b)) throw k
    | _ => throw TypeError
    end.

Module TasksPage.

Import ApiClient.

Definition fetchTasks : Prog :=
  try_await (api GetTasks)
    (fun response => member response "tasks" (fun tasks =>
       no_throw (does [setState "setTasks" (js_or tasks (JArr []))])))
    (fun error => does [message_error (JStr "获取任务列表失败")])
    (does [setState "setLoading" (JBool false)])
    Return.

Definition fetchStatistics : Prog :=
  try_await (api GetTaskStatistics)
    (fun response => no_throw (does [setState "setStatistics" response]))
    (fun error => does [console_error "获取统计信息失败:" error])
    no_finally
    Return.

Definition handleStartTask (taskId : Z) : Prog :=
  try_await (api (StartTask taskId))
    (fun _ => no_throw (then_ (does [message_success (JStr "任务启动成功")])
                              (spawn fetchTasks)))
    (fun error => does [message_error
                          (js_or (error_message error) (JStr "启动任务失败"))])
    no_finally
    Return.

Definition handleCancelTask (taskId : Z) : Prog :=
  try_await (api (CancelTask taskId))
    (fun _ => no_throw (then_ (does [message_success (JStr "任务取消成功")])
                              (spawn fetchTasks)))
    (fun error => does [message_error (JStr "取消任务失败")])
    no_finally
    Return.

Definition handleDeleteTask (taskId : Z) : Prog :=
  try_await (api (DeleteTask taskId))
    (fun _ => no_throw (then_ (does [message_success (JStr "删除成功")])
                       (then_ (spawn fetchTasks) (spawn fetchStatistics))))
    (fun error => does [message_error (JStr "删除失败")])
    no_finally
    Return.

(** [handleViewDetails(task)], with [task.id] as the argument. *)
Definition handleViewDetails (task_id : Z) : Prog :=
  try_await (api (GetTask task_id))
    (fun response => member response "task" (fun task =>
       no_throw (does [setState "setSelectedTask" task;
                       setState "setDetailModalVisible" (JBool true)])))
    (fun error => does [message_error (JStr "获取任务详情失败")])
    no_finally
    Return.

Record StatusConfig : Type := mkStatusConfig {
  color : string;
  text : string;
  icon : option string                   (* the icon component, or [null] *)
}.

Definition configs : list (string * StatusConfig) :=
  [("pending", mkStatusConfig "orange" "待处理" (Some "ClockCircleOutlined"));
   ("running", mkStatusConfig "green" "运行中" (Some "PlayCircleOutlined"));
   ("completed", mkStatusConfig "blue" "已完成" (Some "CheckCircleOutlined"));
   ("failed", mkStatusConfig "red" "失败" (Some "ExclamationCircleOutlined"));
   ("cancelled", mkStatusConfig "default" "已取消" (Some "PauseCircleOutlined"))].

(** [return configs[status] || { color: 'default', text: status, icon: null }] *)
Definition getStatusConfig (status : string) : Looked StatusConfig :=
  lookup_or configs status (mkStatusConfig "default" status None).

(** The status column: [<Tag icon={config.icon} color={config.color}>
    {config.text}</Tag>]. *)
Definition render_status (status : string) : Tag :=
  match getStatusConfig status with
  | Entry config => mkTag (Some (color config)) (Some (text config))
  | Builtin _ => mkTag None None
  end.

(** The polling effect:
<<
    useEffect(() => {
      fetchTasks();
      fetchStatistics();
      const interval = setInterval(() => { fetchTasks(); }, 5000);
      setRefreshInterval(interval);
      return () => { if (interval) clearInterval(interval); };
    }, []);
>> *)
Definition polling_callback : Prog := Spawn fetchTasks Return.

Definition polling_effect : Prog :=
  Spawn fetchTasks
  (Spawn fetchStatistics
  (SetInterval polling_callback 5000 (fun interval =>
   Do (setState "setRefreshInterval" (js_int interval))
  (ReturnCleanup
     (if interval =? 0 then Return else ClearInterval interval Return))))).

Inductive TasksAction : Type :=
| ClickRefresh
| ClickViewDetails (task_id : Z)
| ClickStart (taskId : Z)
| ConfirmCancel (taskId : Z)
| ConfirmDelete (taskId : Z)
| CloseDetails.

Definition on_action (a : TasksAction) : Prog :=
  match a with
  | ClickRefresh => Spawn fetchTasks (Spawn fetchStatistics Return)
  | ClickViewDetails i => Spawn (handleViewDetails i) Return
  | ClickStart i => Spawn (handleStartTask i) Return
  | ConfirmCancel i => Spawn (handleCancelTask i) Return
  | ConfirmDelete i => Spawn (handleDeleteTask i) Return
  | CloseDetails => Do (setState "setDetailModalVisible" (JBool false)) Return
  end.

Definition page : Page := mkPage TasksAction polling_effect on_action.

End TasksPage.

Module Dashboard.

Import ApiClient.

Definition nth_response (n : nat) (vs : list JsValue) : JsValue :=
  default JUndefined (vs !! n).

Definition fetchDashboardData : Prog :=
  does [setState "setLoading" (JBool true)]
  (try_await_all
    [api GetDatasetStatistics; api GetTasks; api GetResults;
     api GetRunningTasks; api GetTaskStatistics; api GetResultStatistics]
    (fun vs =>
       let datasetsResponse := nth_response 0 vs in
       let tasksResponse := nth_response 1 vs in
       let resultsResponse := nth_response 2 vs in
       let runningTasksResponse := nth_response 3 vs in
       let taskStatsResponse := nth_response 4 vs in
       let resultStatsResponse := nth_response 5 vs in
       member datasetsResponse "total_datasets" (fun total_datasets =>
       member taskStatsResponse "total_tasks" (fun total_tasks =>
       member resultStatsResponse "total_results" (fun total_results =>
       member runningTasksResponse "count" (fun count =>
       member tasksResponse "tasks" (fun tasks =>
       opt_slice_0_5 tasks (fun recentTasks =>
       member resultsResponse "results" (fun results =>
       opt_slice_0_5 results (fun recentResults =>
       member taskStatsResponse "algorithm_stats" (fun algorithm_stats =>
       member taskStatsResponse "status_stats" (fun status_stats =>
       no_throw (does
         [setState "setData" (JObj
            [("totalDatasets", js_or total_datasets (js_int 0));
             ("totalTasks", js_or total_tasks (js_int 0));
             ("totalResults", js_or total_results (js_int 0));
             ("runningTasks", js_or count (js_int 0));
             ("recentTasks", js_or recentTasks (JArr []));
             ("recentResults", js_or recentResults (JArr []));
             ("algorithmStats", js_or algorithm_stats (JObj []));
             ("statusStats", js_or status_stats (JObj []))]);
          setState "setError" JNull]))))))))))))
    (fun err => does [setState "setError" (JStr "获取仪表板数据失败");
                      console_error "Dashboard data fetch error:" err])
    (does [setState "setLoading" (JBool false)])
    Return).

Definition statusConfig : list (string * (string * string)) :=
  [("pending", ("orange", "待处理"));
   ("running", ("green", "运行中"));
   ("completed", ("blue", "已完成"));
   ("failed", ("red", "失败"));
   ("cancelled", ("default", "已取消"))].

(** The status column of [taskColumns]:
<<
    const config = statusConfig[status] || { color: 'default', text: status };
    return <Tag color={config.color}>{config.text}</Tag>;
>> *)
Definition render_status (status : string) : Tag :=
  match lookup_or statusConfig status ("default", status) with
  | Entry config => mkTag (Some (fst config)) (Some (snd config))
  | Builtin _ => mkTag None None
  end.

Definition mount_effect : Prog := Spawn fetchDashboardData Return.

(** The dashboard has no control that starts a request. *)
Definition on_action (a : Empty_set) : Prog := match a with end.

Definition page : Page := mkPage Empty_set mount_effect on_action.

End Dashboard.

Module DatasetsPage.

Import ApiClient.

Definition fetchDatasets : Prog :=
  does [setState "setLoading" (JBool true)]
  (try_await (api GetDatasets)
    (fun response => member response "datasets" (fun datasets =>
       no_throw (does [setState "setDatasets" (js_or datasets (JArr []))])))
    (fun error => does [message_error (JStr "获取数据集列表失败")])
    (does [setState "setLoading" (JBool false)])
    Return).

Definition fetchStatistics : Prog :=
  try_await (api GetDatasetStatistics)
    (fun response => no_throw (does [setState "setStatistics" response]))
    (fun error => does [console_error "获取统计信息失败:" error])
    no_finally
    Return.

(** [handleUpload(values)] with [values] destructured into the form's
    fields; [file] is the upload control's file list, absent while the
    control is untouched. *)
Definition handleUpload (file : option (list JsValue))
    (name description : JsValue) : Prog :=
  match file with
  | None | Some [] => Do (message_error (JStr "请选择文件")) Return
  | Some (first :: _) =>
      let formData :=
        JObj ([("file", opt_get first "originFileObj"); ("name", name)]
              ++ (if truthy description then [("description", description)]
                  else [])) in
      try_await (api (UploadDataset formData))
        (fun _ => no_throw
           (then_ (does [message_success (JStr "数据集上传成功");
                         setState "setUploadModalVisible" (JBool false);
                         ui_other "form.resetFields()"])
           (then_ (spawn fetchDatasets) (spawn fetchStatistics))))
        (fun error => does [message_error
                              (js_or (error_message error) (JStr "上传失败"))])
        no_finally
        Return
  end.

Definition handleDelete (id : Z) : Prog :=
  try_await (api (DeleteDataset id))
    (fun _ => no_throw (then_ (does [message_success (JStr "删除成功")])
                       (then_ (spawn fetchDatasets) (spawn fetchStatistics))))
    (fun error => does [message_error (JStr "删除失败")])
    no_finally
    Return.

(** [handlePreview(dataset)]; [dataset_id] is [dataset.id]. *)
Definition handlePreview (dataset : JsValue) (dataset_id : Z) : Prog :=
  try_await (api (PreviewDataset dataset_id (Some 10)))
    (fun response =>
       member response "preview" (fun preview =>
       member response "dataset_info" (fun dataset_info =>
       no_throw (does
         [setState "setPreviewData" (JObj
            [("dataset", dataset);
             ("preview", js_or preview (JObj []));
             ("dataset_info", js_or dataset_info (JObj []))]);
          setState "setPreviewModalVisible" (JBool true)]))))
    (fun error => does [message_error (JStr "预览失败")])
    no_finally
    Return.

Definition mount_effect : Prog :=
  Spawn fetchDatasets (Spawn fetchStatistics Return).

Inductive DatasetsAction : Type :=
| SubmitUpload (file : option (list JsValue)) (name description : JsValue)
| ConfirmDelete (id : Z)
| ClickPreview (dataset : JsValue) (dataset_id : Z)
| OpenUpload
| CancelUpload
| ClosePreview.

Definition on_action (a : DatasetsAction) : Prog :=
  match a with
  | SubmitUpload f n d => Spawn (handleUpload f n d) Return
  | ConfirmDelete i => Spawn (handleDelete i) Return
  | ClickPreview d i => Spawn (handlePreview d i) Return
  | OpenUpload => Do (setState "setUploadModalVisible" (JBool true)) Return
  | CancelUpload =>
      does [setState "setUploadModalVisible" (JBool false);
            ui_other "form.resetFields()"] Return
  | ClosePreview => Do (setState "setPreviewModalVisible" (JBool false)) Return
  end.

Definition page : Page := mkPage DatasetsAction mount_effect on_action.

End DatasetsPage.

Module ResultsPage.

Import ApiClient.

Definition fetchResults : Prog :=
  does [setState "setLoading" (JBool true)]
  (try_await (api GetResults)
    (fun response => member response "results" (fun results =>
       no_throw (does [setState "setResults" (js_or results (JArr []))])))
    (fun error => does [message_error (JStr "获取结果列表失败")])
    (does [setState "setLoading" (JBool false)])
    Return).

Definition fetchStatistics : Prog :=
  try_await (api GetResultStatistics)
    (fun response => no_throw (does [setState "setStatistics" response]))
    (fun error => does [console_error "获取统计信息失败:" error])
    no_finally
    Return.

Definition handleViewDetails (result : JsValue) : Prog :=
  does [setState "setSelectedResult" result;
        setState "setDetailModalVisible" (JBool true)] Return.

(** [handleExport(resultId, format = 'csv')]: the blob is offered for
    download under [result_<id>.<format>]. *)
Definition handleExport (resultId : Z) (format : option string) : Prog :=
  let format := default "csv" format in
  try_await (api (ExportResult resultId (Some format)))
    (fun blob => no_throw (does
       [ui_other ("download result_" +:+ Number_toString resultId
                  +:+ "." +:+ format);
        message_success (JStr "导出成功")]))
    (fun error => does [message_error (JStr "导出失败")])
    no_finally
    Return.

(** [score > 0.7] and the like are IEEE comparisons with the double
    nearest to the literal; every comparison with NaN is false. *)
Definition getQualityColor (score : float) : string :=
  if (0.7 <? score)%float then "success"
  else if (0.3 <? score)%float then "processing"
  else if (0.1 <? score)%float then "warning"
  else "error".

Definition getQualityStatus (score : float) : string :=
  if (0.7 <? score)%float then "优秀"
  else if (0.3 <? score)%float then "良好"
  else if (0.1 <? score)%float then "一般"
  else "较差".

Definition mount_effect : Prog :=
  Spawn fetchResults (Spawn fetchStatistics Return).

Inductive ResultsAction : Type :=
| ClickViewDetails (result : JsValue)
| ClickExport (resultId : Z)
| CloseDetails.

Definition on_action (a : ResultsAction) : Prog :=
  match a with
  | ClickViewDetails r => handleViewDetails r
  | ClickExport i => Spawn (handleExport i None) Return
  | CloseDetails => Do (setState "setDetailModalVisible" (JBool false)) Return
  end.

Definition page : Page := mkPage ResultsAction mount_effect on_action.

End ResultsPage.

(** [{ ...values, key: v }]: the own properties of [values] with [key]
    overwritten in place or added last. *)
Fixpoint set_property (props : list (string * JsValue)) (key : string)
    (v : JsValue) : list (string * JsValue) :=
  match props with
  | [] => [(key, v)]
  | (k, x) :: rest =>
      if String.eqb k key then (k, v) :: rest
      else (k, x) :: set_property rest key v
  end.

Definition spread_with (values : JsValue) (key : string) (v : JsValue)
  : JsValue :=
  match values with
  | JObj props => JObj (set_property props key v)
  | _ => JObj [(key, v)]
  end.

Module AnalysisPage.

Import ApiClient.

Definition fetchInitialData : Prog :=
  try_await_all [api GetDatasets; api GetAlgorithms]
    (fun vs =>
       let datasetsResponse := default JUndefined (vs !! 0%nat) in
       let algorithmsResponse := default JUndefined (vs !! 1%nat) in
       member datasetsResponse "datasets" (fun datasets =>
       fun throw k =>
         Do (setState "setDatasets" (js_or datasets (JArr [])))
            (member algorithmsResponse "algorithms" (fun algorithms =>
               no_throw (does [setState "setAlgorithms"
                                 (js_or algorithms (JObj []))])) throw k)))
    (fun error => does [message_error (JStr "获取数据失败")])
    no_finally
    Return.

Definition fetchAlgorithmDetails (algorithmName : string) : Prog :=
  try_await (api (GetAlgorithmInfo algorithmName))
    (fun response => member response "algorithm" (fun algorithm =>
       no_throw (does [setState "setAlgorithmDetails" algorithm])))
    (fun error => does [message_error (JStr "获取算法详情失败")])
    no_finally
    Return.

Definition handleAlgorithmSelect (algorithmName : string) : Prog :=
  Do (setState "setSelectedAlgorithm" (JStr algorithmName))
     (Spawn (fetchAlgorithmDetails algorithmName) Return).

Definition handleCreateTask (selectedAlgorithm : string) : Prog :=
  if truthy (JStr selectedAlgorithm) then
    Do (setState "setCreateModalVisible" (JBool true)) Return
  else Do (message_error (JStr "请先选择算法")) Return.

Definition handleSubmitTask (selectedAlgorithm : string) (values : JsValue)
  : Prog :=
  does [setState "setLoading" (JBool true)]
  (let taskData :=
     spread_with values "algorithm_name" (JStr selectedAlgorithm) in
   try_await (api (CreateTask taskData))
     (fun _ => no_throw (does
        [message_success (JStr "任务创建成功");
         setState "setCreateModalVisible" (JBool false);
         ui_other "form.resetFields()"]))
     (fun error => does [message_error
                           (js_or (error_message error) (JStr "创建任务失败"))])
     (does [setState "setLoading" (JBool false)])
     Return).

Definition mount_effect : Prog := Spawn fetchInitialData Return.

Inductive AnalysisAction : Type :=
| SelectAlgorithm (key : string)
| ClickCreateTask (selectedAlgorithm : string)
| SubmitTask (selectedAlgorithm : string) (values : JsValue)
| CancelCreate.

Definition on_action (a : AnalysisAction) : Prog :=
  match a with
  | SelectAlgorithm key => handleAlgorithmSelect key
  | ClickCreateTask s => handleCreateTask s
  | SubmitTask s v => Spawn (handleSubmitTask s v) Return
  | CancelCreate =>
      does [setState "setCreateModalVisible" (JBool false);
            ui_other "form.resetFields()"] Return
  end.

Definition page : Page := mkPage AnalysisAction mount_effect on_action.

End AnalysisPage.

Module LoginPage.

Definition onFinish (username password : string) : Prog :=
  does [setState "setLoading" (JBool true)]
  (try_await (auth_login username password)
    (fun _ => no_throw (does [message_success (JStr "登录成功");
                              ui_other "router.push('/')"]))
    (fun error => does [message_error
                          (js_or (error_message error) (JStr "登录失败"))])
    (does [setState "setLoading" (JBool false)])
    Return).

(** [useEffect(() => { if (!isLoading && isAuthenticated)
    router.push('/'); }, ...)] *)
Definition redirect_effect (isLoading isAuthenticated : bool) : Prog :=
  if negb isLoading && isAuthenticated
  then Do (ui_other "router.push('/')") Return
  else Return.

Inductive LoginAction : Type :=
| SubmitLogin (username password : string).

Definition on_action (a : LoginAction) : Prog :=
  match a with
  | SubmitLogin u p => Spawn (onFinish u p) Return
  end.

Definition page (isLoading isAuthenticated : bool) : Page :=
  mkPage LoginAction (redirect_effect isLoading isAuthenticated) on_action.

End LoginPage.

(** Every page of these sources. *)
Inductive is_page : Page -> Prop :=
| page_dashboard : is_page Dashboard.page
| page_datasets : is_page DatasetsPage.page
| page_tasks : is_page TasksPage.page
| page_results : is_page ResultsPage.page
| page_analysis : is_page AnalysisPage.page
| page_login l a : is_page (LoginPage.page l a).

(** ** Predicates on programs and worlds *)

(** [everywhere P p]: [P] holds of [p] and of every program reachable
    inside it, whatever value a continuation receives. *)
Inductive everywhere (P : Prog -> Prop) : Prog -> Prop :=
| ew_Return : P Return -> everywhere P Return
| ew_ReturnCleanup c :
    P (ReturnCleanup c) -> everywhere P c -> everywhere P (ReturnCleanup c)
| ew_Do u k : P (Do u k) -> everywhere P k -> everywhere P (Do u k)
| ew_Await ops k :
    P (Await ops k) -> (forall o, everywhere P (k o)) ->
    everywhere P (Await ops k)
| ew_Spawn c k :
    P (Spawn c k) -> everywhere P c -> everywhere P k ->
    everywhere P (Spawn c k)
| ew_SetInterval cb ms k :
    P (SetInterval cb ms k) -> everywhere P cb ->
    (forall id, everywhere P (k id)) ->
    everywhere P (SetInterval cb ms k)
| ew_ClearInterval id k :
    P (ClearInterval id k) -> everywhere P k ->
    everywhere P (ClearInterval id k).

(** The program touches no timer and returns no cleanup closure. *)
Definition no_timer (p : Prog) : Prop :=
  match p with
  | SetInterval _ _ _ | ClearInterval _ _ | ReturnCleanup _ => False
  | _ => True
  end.

(** The program starts nothing: no [await], no timer. *)
Definition starts_nothing (p : Prog) : Prop :=
  match p with
  | Await _ _ | SetInterval _ _ _ => False
  | _ => True
  end.


(** The await sites whose failure is not shown as a toast: the
    statistics fetches (also part of the dashboard's [Promise.all]). *)
Definition is_statistics (op : Op) : bool :=
  match op with
  | api ApiClient.GetTaskStatistics
  | api ApiClient.GetDatasetStatistics
  | api ApiClient.GetResultStatistics => true
  | _ => false
  end.

Definition toast_first (p : Prog) : Prop :=
  exists content rest, p = Do (message_error content) rest.

(** At an [await] that fetches no statistics, what runs after a
    rejection begins by showing an error toast. *)
Definition toasts_rejection (p : Prog) : Prop :=
  match p with
  | Await ops k =>
      existsb is_statistics ops = false ->
      forall e, toast_first (k (Rejected e))
  | _ => True
  end.

Definition is_toast (u : Ui) : bool :=
  match u with
  | message_error _ => true
  | _ => false
  end.

(** A cleanup closure returned by an effect starts nothing. *)
Definition cleanup_starts_nothing (p : Prog) : Prop :=
  match p with
  | ReturnCleanup c => everywhere starts_nothing c
  | _ => True
  end.

(** Worlds whose stored programs (suspended handlers, timer callbacks,
    cleanup closure) all satisfy [P] everywhere. *)
Definition suspended_ok (P : Prog -> Prop) (w : World) : Prop :=
  forall s, s ∈ suspended w -> exists ops, everywhere P (Await ops (resume s)).

Definition timers_ok (P : Prog -> Prop) (w : World) : Prop :=
  forall id t, timers w !! id = Some t -> everywhere P (callback t).

Definition cleanup_ok (P : Prog -> Prop) (w : World) : Prop :=
  forall c, cleanup w = Some c -> everywhere P c.

Definition world_ok (P : Prog -> Prop) (w : World) : Prop :=
  suspended_ok P w /\ timers_ok P w /\ cleanup_ok P w.

(** The suspended handlers [ss] all resume as handlers of [w] do. *)
Definition resume_as_in (w : World) (ss : list Suspended) : Prop :=
  forall s, s ∈ ss -> exists s', s' ∈ suspended w /\ resume s = resume s'.

(** The programs of a page satisfy [P] everywhere. *)
Definition page_ok (P : Prog -> Prop) (page : Page) : Prop :=
  everywhere P (effect page) /\ forall a, everywhere P (on_action page a).

(** The worlds a page can reach from the initial one. *)
Inductive reachable (page : Page) : World -> Prop :=
| reach_initial : reachable page initial_world
| reach_step w ev :
    reachable page w -> reachable page (step page w ev).

(** Events other than mounting and unmounting. *)
Definition is_lifecycle {A} (ev : Event A) : bool :=
  match ev with
  | Mount | Unmount => true
  | _ => false
  end.


(** The operations a step starts. *)
Definition started_by (page : Page) (w : World) (ev : Event (Action page))
  : list Op :=
  drop (length (started w)) (started (step page w ev)).

(** The stored cleanup closure starts nothing. *)
Definition cleanup_silent (w : World) : Prop :=
  forall c, cleanup w = Some c -> everywhere starts_nothing c.

(** How often timer [id] fires in a sequence of events. *)
Fixpoint firings {A} (id : Z) (evs : list (Event A)) : Z :=
  match evs with
  | [] => 0
  | Fire id' :: rest => (if id' =? id then 1 else 0) + firings id rest
  | _ :: rest => firings id rest
  end.

(** The task page between mounting and unmounting, after [n] firings of
    the timer: the clock stands at [5000 * n]; there is one timer, of
    period 5000 ms, running the polling callback and due at
    [5000 * (n + 1)]; the cleanup closure clears that timer; no
    suspended handler touches a timer. *)
Definition polling_invariant (n : Z) (w : World) : Prop :=
  clock w = 5000 * n
  /\ timers w
     = {[ 1 := mkTimer 5000 TasksPage.polling_callback (5000 * (n + 1)) ]}
  /\ cleanup w = Some (ClearInterval 1 Return)
  /\ next_timer w = 2
  /\ suspended_ok no_timer w.


(** ** Shapes of strings *)

(** The characters a printed integer is made of. *)
Definition digit_or_dash (c : Ascii.ascii) : bool :=
  existsb (Ascii.eqb c) (String.list_ascii_of_string "0123456789-").

Definition starts_numeric (s : string) : bool :=
  match s with
  | String c _ => digit_or_dash c
  | EmptyString => false
  end.

(** The methods that address one record by its id. *)
Definition by_id : list (Z -> ApiClient.Call) :=
  [ApiClient.GetDataset; ApiClient.DeleteDataset; ApiClient.ValidateDataset;
   ApiClient.GetTask; ApiClient.StartTask; ApiClient.CancelTask;
   ApiClient.DeleteTask; ApiClient.GetResult; ApiClient.DeleteResult].

(** ** Handlers after their first await *)

(** What a handler runs once its first [await] settles with [o]. *)
Fixpoint after_await (p : Prog) (o : Settled (list JsValue)) : Prog :=
  match p with
  | Do _ k => after_await k o
  | Await _ k => k o
  | _ => Return
  end.

(** The last effect a program shows is [setLoading(false)]. *)
Definition ends_loading_off (p : Prog) : Prop :=
  forall w, last (shown (exec p w)) = Some (setState "setLoading" (JBool false)).

(** Every effect a program can show satisfies [Q]. *)
Definition shows_only (Q : Ui -> Prop) (p : Prog) : Prop :=
  match p with
  | Do u _ => Q u
  | _ => True
  end.

Definition not_loading_on (u : Ui) : Prop :=
  u <> setState "setLoading" (JBool true).

Definition at_most_five (v : JsValue) : Prop :=
  forall items, v = JArr items -> (length items <= 5)%nat.

(** A stored dashboard record lists at most five recent tasks and five
    recent results. *)
Definition recent_bounded (u : Ui) : Prop :=
  match u with
  | setState setter d =>
      setter = "setData" ->
      at_most_five (opt_get d "recentTasks")
      /\ at_most_five (opt_get d "recentResults")
  | _ => True
  end.

(** The numbers on the dashboard's cards:
    [{data?.totalDatasets || 3}], [{data?.totalTasks || 9}],
    [{data?.totalResults || 9}]; [data] is [null] until a fetch has
    succeeded. *)
Module DashboardCards.

Definition totalDatasets (data : JsValue) : JsValue :=
  js_or (opt_get data "totalDatasets") (js_int 3).

Definition totalTasks (data : JsValue) : JsValue :=
  js_or (opt_get data "totalTasks") (js_int 9).

Definition totalResults (data : JsValue) : JsValue :=
  js_or (opt_get data "totalResults") (js_int 9).

End DashboardCards.

(** ** The order of doubles

    IEEE comparison, read off the specification of binary64 values: a
    double that is not NaN is placed by sign class, exponent and
    mantissa, and doubles compare as these triples do, lexically. *)

Definition rank (f : spec_float) : option (Z * Z * Z) :=
  match f with
  | S754_nan => None
  | S754_infinity true => Some (-2, 0, 0)
  | S754_infinity false => Some (2, 0, 0)
  | S754_zero _ => Some (0, 0, 0)
  | S754_finite false m e => Some (1, e, Zpos m)
  | S754_finite true m e => Some (-1, - e, Zneg m)
  end.

Definition key (x : float) : option (Z * Z * Z) := rank (Prim2SF x).

Definition lex3_compare (x y : Z * Z * Z) : comparison :=
  match x, y with
  | (a, b, c), (a', b', c') =>
      match a ?= a' with
      | Eq => match b ?= b' with
              | Eq => c ?= c'
              | o => o
              end
      | o => o
      end
  end.

Definition lex_lt (x y : Z * Z * Z) : Prop :=
  match x, y with
  | (a, b, c), (a', b', c') =>
      a < a' \/ (a = a' /\ (b < b' \/ (b = b' /\ c < c')))
  end.

(** ** The results page: colors, charts and totals *)

Module ResultsView.

(** The fields of a [Result] the page computes with. *)
Record Result : Type := mkResult {
  result_id : Z;
  algorithm_name : string;
  silhouette_score : float;
  bot_addresses_pct : float;
  bot_addresses_count : float;
  normal_addresses_count : float;
  processing_time : float
}.

Definition getDetectionRateColor (rate : float) : string :=
  if ((5 <=? rate) && (rate <=? 15))%float then "success"
  else if ((2 <=? rate) && (rate <=? 20))%float then "warning"
  else "error".

Definition colors : list (string * string) :=
  [("DBSCAN", "blue"); ("IsolationForest", "green"); ("KmeansPlus", "orange")].

(** [return colors[algorithm] || 'default'] *)
Definition getAlgorithmColor (algorithm : string) : Looked string :=
  lookup_or colors algorithm "default".

(** The three counts of [getDetectionStatusChartOption]. *)
Definition successCount (results : list Result) : nat :=
  length (List.filter (fun r => (0.3 <? silhouette_score r)%float) results).

Definition warningCount (results : list Result) : nat :=
  length (List.filter
            (fun r => ((0.1 <? silhouette_score r)
                       && (silhouette_score r <=? 0.3))%float) results).

Definition errorCount (results : list Result) : nat :=
  length (List.filter (fun r => (silhouette_score r <=? 0.1)%float) results).

(** The pie's data: value, name and color of each slice. *)
Definition getDetectionStatusChartOption (results : list Result)
  : list (nat * string * string) :=
  [(successCount results, "检测成功", "#52c41a");
   (warningCount results, "检测警告", "#faad14");
   (errorCount results, "检测异常", "#ff4d4f")].

(** [results.slice(-10).map((result, index) => ({ day: index + 1,
    bots: ..., normal: ... }))] *)
Record TrendPoint : Type := mkTrendPoint {
  day : nat;
  bots : float;
  normal : float
}.

Definition trendData (results : list Result) : list TrendPoint :=
  imap (fun index result =>
          mkTrendPoint (index + 1) (bot_addresses_count result)
                       (normal_addresses_count result))
       (drop (length results - 10) results).

(** The x axis, [trendData.map(d => d.day.toString())], and the two
    stacked series of [getBotDetectionTrendChartOption]. *)
Definition trend_xAxis (results : list Result) : list string :=
  map (fun d => Number_toString (Z.of_nat (day d))) (trendData results).

Definition trend_bots (results : list Result) : list float :=
  map bots (trendData results).

Definition trend_normal (results : list Result) : list float :=
  map normal (trendData results).

(** [results.length] as a number. *)
Definition js_length {A} (l : list A) : float :=
  PrimFloat.of_uint63 (Uint63.of_Z (Z.of_nat (length l))).

Record TotalStats : Type := mkTotalStats {
  totalResults : nat;
  avgSilhouette : float;
  avgDetectionRate : float;
  avgProcessingTime : float;
  bestResult : Result
}.

(** [results.reduce((sum, r) => sum + f(r), 0) / results.length] *)
Definition average (f : Result -> float) (results : list Result) : float :=
  (fold_left (fun sum r => sum + f r) results 0 / js_length results)%float.

(** [results.reduce((best, current) => current.silhouette_score >
    best.silhouette_score ? current : best)], from the first element. *)
Definition best_of (first : Result) (rest : list Result) : Result :=
  fold_left (fun best current =>
               if (silhouette_score best <? silhouette_score current)%float
               then current else best) rest first.

(** [totalStats]: [null] for an empty list. *)
Definition totalStats (results : list Result) : option TotalStats :=
  match results with
  | [] => None
  | first :: rest =>
      Some (mkTotalStats (length results)
              (average silhouette_score results)
              (average bot_addresses_pct results)
              (average processing_time results)
              (best_of first rest))
  end.

End ResultsView.

(** ** The task page: colors and the buttons of a row *)

Module TasksView.

Definition colors : list (string * string) :=
  [("DBSCAN", "blue"); ("IsolationForest", "green"); ("KmeansPlus", "orange")].

Definition getAlgorithmColor (algorithm : string) : Looked string :=
  lookup_or colors algorithm "default".

Inductive Button : Type :=
| ViewButton | StartButton | CancelButton | DeleteButton.

(** The action column of a row, by [record.status]. *)
Definition actions (status : string) : list Button :=
  [ViewButton]
  ++ (if String.eqb status "pending" then [StartButton] else [])
  ++ (if String.eqb status "running" then [CancelButton] else [])
  ++ (if existsb (String.eqb status) ["completed"; "failed"; "cancelled"]
      then [DeleteButton] else []).

(** [status={record.status === 'failed' ? 'exception' : 'active'}] *)
Definition progress_status (status : string) : string :=
  if String.eqb status "failed" then "exception" else "active".

End TasksView.

(** ** The dataset page: colors *)

Module DatasetsView.

Definition fileTypeColors : list (string * string) :=
  [("csv", "green"); ("json", "blue"); ("xlsx", "orange")].

Definition getFileTypeColor (fileType : string) : Looked string :=
  lookup_or fileTypeColors fileType "default".

Definition dataFormatColors : list (string * string) :=
  [("BLTE", "purple"); ("Transaction", "cyan"); ("Generic", "geekblue")].

(** [return colors[format || ''] || 'default'] with [format] optional. *)
Definition getDataFormatColor (format : option string) : Looked string :=
  lookup_or dataFormatColors
    (match format with
     | Some f => if String.eqb f "" then "" else f
     | None => ""
     end) "default".

End DatasetsView.

(** ** The dashboard: the status pie *)

Module DashboardView.




End DashboardView.

(* ===================================================================== *)
(** * Part II: properties *)
(* ===================================================================== *)

(** ** The HTTP client *)

Lemma append_assoc (a b c : string) : (a +:+ b) +:+ c = a +:+ (b +:+ c).
Proof.
  induction a as [| x a IH]; [reflexivity |].
  change (String x ((a +:+ b) +:+ c) = String x (a +:+ (b +:+ c))).
  now rewrite IH.
Qed.

Section ClientFacts.

Import ApiClient.

Variable backend : RequestConfig -> NetOutcome.

(** A request puts exactly one configuration on the wire, the one the
    request interceptor produced, whatever the answer is. *)
Lemma request_sent (config : RequestConfig) (w : World) :
  sent (fst (request backend config w))
  = sent w ++ [request_interceptor (browser w) config].
Proof.
  unfold request, response_onRejected.
  destruct (settle _) as [r | e]; [reflexivity |].
  destruct (is_unauthorized e); reflexivity.
Qed.

Lemma request_result (config : RequestConfig) (w : World) :
  snd (request backend config w)
  = settle (backend (request_interceptor (browser w) config)).
Proof.
  unfold request, response_onRejected, response_onFulfilled.
  destruct (settle _) as [r | e]; [reflexivity |].
  destruct (is_unauthorized e); reflexivity.
Qed.

Lemma request_browser (config : RequestConfig) (w : World) :
  browser (fst (request backend config w))
  = match settle (backend (request_interceptor (browser w) config)) with
    | Resolved _ => browser w
    | Rejected e =>
        if is_unauthorized e
        then set_location_href "/login" (removeItem "access_token" (browser w))
        else browser w
    end.
Proof.
  unfold request, response_onRejected.
  destruct (settle _) as [r | e]; [reflexivity |].
  destruct (is_unauthorized e); reflexivity.
Qed.

(** Every method is one [request] followed by [return response.data]. *)
Lemma invoke_is_one_request (c : Call) :
  exists config,
    (cfg_method config, cfg_url config) = endpoint c
    /\ cfg_headers config !! "Authorization" = None
    /\ forall w,
         invoke backend c w
         = bind (request backend config) (fun r => ret (data r)) w.
Proof.
  destruct c; eexists; (split; [| split; [| intros w; reflexivity]]);
    first [reflexivity | vm_compute; reflexivity].
Qed.

Lemma bind_data_sent (config : RequestConfig) (w : World) :
  sent (fst (bind (request backend config) (fun r => ret (data r)) w))
  = sent (fst (request backend config w)).
Proof.
  unfold bind, ret. destruct (request backend config w) as [w' [r | e]];
    reflexivity.
Qed.

Lemma bind_data_browser (config : RequestConfig) (w : World) :
  browser (fst (bind (request backend config) (fun r => ret (data r)) w))
  = browser (fst (request backend config w)).
Proof.
  unfold bind, ret. destruct (request backend config w) as [w' [r | e]];
    reflexivity.
Qed.

Lemma bind_data_result (config : RequestConfig) (w : World) :
  snd (bind (request backend config) (fun r => ret (data r)) w)
  = match snd (request backend config w) with
    | Resolved r => Resolved (data r)
    | Rejected e => Rejected e
    end.
Proof.
  unfold bind, ret. destruct (request backend config w) as [w' [r | e]];
    reflexivity.
Qed.

End ClientFacts.

Section ClientClaims.

Import ApiClient.

(** The browser after the forced logout. *)
Local Abbreviation logged_out b :=
  (mkBrowser (delete "access_token" (localStorage b)) "/login").

(** C1.  An error whose response has status 401 makes the response
    interceptor remove [access_token] from localStorage, set the location
    to [/login] and reject with the same error; any other error (another
    status, or no response at all) leaves localStorage and the location
    as they are and is rejected as well.  Through the client: a non-2xx
    answer to the one request of any method rejects the method's promise
    with that response attached, after the logout exactly when the
    status is 401. *)
Theorem C1_unauthorized_forces_logout :
  (forall (b : Browser) (e : AxiosError) (r : AxiosResponse),
      response e = Some r -> status r = 401 ->
      response_onRejected b e = (logged_out b, Rejected e))
  /\ (forall (b : Browser) (e : AxiosError),
      (forall r, response e = Some r -> status r <> 401) ->
      response_onRejected b e = (b, Rejected e))
  /\ (forall backend (c : Call) (w : World),
      exists config',
        sent (fst (invoke backend c w)) = sent w ++ [config']
        /\ forall r,
             backend config' = NetResponse r ->
             validateStatus (status r) = false ->
             snd (invoke backend c w) = Rejected (mkError (Some r))
             /\ browser (fst (invoke backend c w))
                = if status r =? 401 then logged_out (browser w)
                  else browser w).
Proof.
  split; [| split].
  - intros b e r Hr Hs. unfold response_onRejected, is_unauthorized.
    rewrite Hr, Hs. reflexivity.
  - intros b e Hne. unfold response_onRejected, is_unauthorized.
    destruct (response e) as [r |]; [| reflexivity].
    destruct (Z.eqb_spec (status r) 401) as [Heq | _]; [| reflexivity].
    exfalso. exact (Hne r eq_refl Heq).
  - intros backend c w.
    destruct (invoke_is_one_request backend c) as (config & _ & _ & Hinv).
    exists (request_interceptor (browser w) config).
    rewrite Hinv, bind_data_sent, request_sent. split; [reflexivity |].
    intros r Hnet Hbad.
    rewrite bind_data_result, bind_data_browser, request_result,
      request_browser.
    unfold settle. rewrite Hnet, Hbad. split; reflexivity.
Qed.

Lemma C1_unauthorized_forces_logout_witness :
  response_onRejected
    (mkBrowser {[ "access_token" := "t0k3n" ]} "/tasks")
    (mkError (Some (mkResponse 401 JNull)))
  = (mkBrowser (delete "access_token" {[ "access_token" := "t0k3n" ]}) "/login",
     Rejected (mkError (Some (mkResponse 401 JNull)))).
Proof.
  exact (proj1 C1_unauthorized_forces_logout
           (mkBrowser {[ "access_token" := "t0k3n" ]} "/tasks")
           (mkError (Some (mkResponse 401 JNull)))
           (mkResponse 401 JNull) eq_refl eq_refl).
Defined.

(** C2, as stated, fails for a stored empty string: the value is not
    null, yet [if (token)] is false and no header is added. *)
Lemma C2_empty_token_counterexample :
  let b := mkBrowser {[ "access_token" := "" ]} "/" in
  let config := create_config GET "/tasks" JUndefined no_options in
  getItem b "access_token" = Some ""
  /\ cfg_headers (request_interceptor b config) !! "Authorization"
     <> Some ("Bearer " +:+ "").
Proof. vm_compute. split; [reflexivity | discriminate]. Qed.

(** C2, amended.  If localStorage holds a non-empty string for
    [access_token], the interceptor sets the header [Authorization] to
    ["Bearer "] followed by that string and changes nothing else; if it
    holds no value, or the empty string, the interceptor returns the
    configuration unchanged.  Hence the one request of every method
    carries exactly that header, or none. *)
Theorem C2_token_attachment :
  (forall (b : Browser) (config : RequestConfig),
      match getItem b "access_token" with
      | Some token =>
          if String.eqb token "" then request_interceptor b config = config
          else
            request_interceptor b config
            = mkConfig (cfg_method config) (cfg_url config) (cfg_data config)
                (<[ "Authorization" := "Bearer " +:+ token ]> (cfg_headers config))
                (cfg_timeout config) (cfg_responseType config)
      | None => request_interceptor b config = config
      end)
  /\ (forall backend (c : Call) (w : World),
      exists config',
        sent (fst (invoke backend c w)) = sent w ++ [config']
        /\ cfg_headers config' !! "Authorization"
           = match getItem (browser w) "access_token" with
             | Some token =>
                 if String.eqb token "" then None
                 else Some ("Bearer " +:+ token)
             | None => None
             end).
Proof.
  split.
  - intros b config. unfold request_interceptor.
    destruct (getItem b "access_token") as [token |]; [| reflexivity].
    simpl. destruct (String.eqb token ""); reflexivity.
  - intros backend c w.
    destruct (invoke_is_one_request backend c) as (config & _ & Hnone & Hinv).
    exists (request_interceptor (browser w) config).
    rewrite Hinv, bind_data_sent, request_sent. split; [reflexivity |].
    unfold request_interceptor.
    destruct (getItem (browser w) "access_token") as [token |]; [| exact Hnone].
    simpl. destruct (String.eqb token ""); simpl; [exact Hnone |].
    apply lookup_insert_eq.
Qed.

(** C6.  Every public method puts exactly one request on the wire, with
    the verb and path the endpoint table gives for the method and its
    arguments, and returns [response.data] of a resolved response as it
    is (a rejection is passed on). *)
Theorem C6_one_request_per_method :
  forall backend (c : Call) (w : World),
  exists config',
    sent (fst (invoke backend c w)) = sent w ++ [config']
    /\ (cfg_method config', cfg_url config') = endpoint c
    /\ snd (invoke backend c w)
       = match settle (backend config') with
         | Resolved r => Resolved (data r)
         | Rejected e => Rejected e
         end.
Proof.
  intros backend c w.
  destruct (invoke_is_one_request backend c) as (config & Hend & _ & Hinv).
  exists (request_interceptor (browser w) config).
  rewrite Hinv, bind_data_sent, request_sent, bind_data_result, request_result.
  split; [reflexivity |]. split; [| reflexivity].
  rewrite <- Hend. unfold request_interceptor.
  destruct (getItem _ _) as [token |]; [| reflexivity].
  destruct (truthy _); reflexivity.
Qed.

(** C7.  For every [resultId], [exportResult] issues one GET request
    to [/results/{resultId}/export] with response type [blob] and
    returns the body of a resolved response; the query string is
    [format=csv] when the format is omitted and [format={format}] when
    one is given. *)
Theorem C7_exportResult_request :
  forall backend (resultId : Z) (format : option string) (w : World),
  exists config',
    sent (fst (exportResult backend resultId format w)) = sent w ++ [config']
    /\ cfg_method config' = GET
    /\ cfg_url config'
       = ("/results/" +:+ Number_toString resultId +:+ "/export") +:+ "?"
         +:+ match format with
             | None => "format=csv"
             | Some f => "format=" +:+ f
             end
    /\ cfg_responseType config' = Some "blob"
    /\ snd (exportResult backend resultId format w)
       = match settle (backend config') with
         | Resolved r => Resolved (data r)
         | Rejected e => Rejected e
         end.
Proof.
  intros backend resultId format w.
  set (config := create_config GET
         ("/results/" +:+ Number_toString resultId +:+ "/export?format="
          +:+ default "csv" format)
         JUndefined (mkOptions ∅ None (Some "blob"))).
  exists (request_interceptor (browser w) config).
  change (exportResult backend resultId format w)
    with (bind (request backend config) (fun r => ret (data r)) w).
  rewrite bind_data_sent, request_sent, bind_data_result, request_result.
  split; [reflexivity |].
  assert (Hpre : forall x,
             cfg_method (request_interceptor (browser w) x) = cfg_method x
             /\ cfg_url (request_interceptor (browser w) x) = cfg_url x
             /\ cfg_responseType (request_interceptor (browser w) x)
                = cfg_responseType x).
  { intros x. unfold request_interceptor.
    destruct (getItem _ _) as [token |]; [| auto].
    destruct (truthy _); auto. }
  destruct (Hpre config) as (Hm & Hu & Hr). rewrite Hm, Hu, Hr.
  split; [reflexivity |]. split; [| split; reflexivity].
  unfold config, cfg_url, create_config.
  rewrite !append_assoc. destruct format; reflexivity.
Qed.

End ClientClaims.

(** ** The event loop preserves what holds everywhere *)

Lemma find_waiting_split (p : nat) (ss : list Suspended) before s after :
  find_waiting p ss = Some (before, s, after) -> ss = before ++ s :: after.
Proof.
  revert before s after.
  induction ss as [| s0 ss IH]; intros before s after H; simpl in H;
    [discriminate |].
  destruct (waits_for p s0).
  - inversion H; subst. reflexivity.
  - destruct (find_waiting p ss) as [[[b s'] a] |]; [| discriminate].
    inversion H; subst. simpl. f_equal. apply IH. reflexivity.
Qed.

(** The three ways a settling promise changes the world: not at all
    (nobody awaits it), by recording a value, or by resuming one
    suspended handler, rejected exactly when the promise is. *)
Lemma settle_promise_cases (p : nat) (outcome : Settled JsValue) (w : World) :
  settle_promise p outcome w = w
  \/ (exists ss, resume_as_in w ss
                 /\ settle_promise p outcome w = set_suspended ss w
                 /\ exists v, outcome = Resolved v)
  \/ (exists s ss o,
        s ∈ suspended w /\ resume_as_in w ss
        /\ settle_promise p outcome w = exec (resume s o) (set_suspended ss w)
        /\ match outcome with
           | Rejected e => o = Rejected e
           | Resolved _ => exists vs, o = Resolved vs
           end).
Proof.
  unfold settle_promise.
  destruct (find_waiting p (suspended w)) as [[[before s] after] |] eqn:Hf;
    [| left; reflexivity].
  apply find_waiting_split in Hf.
  assert (Hs : s ∈ suspended w).
  { rewrite Hf. apply elem_of_app. right. apply list_elem_of_here. }
  assert (Hrest : resume_as_in w (before ++ after)).
  { intros s' Hin. exists s'. split; [| reflexivity]. rewrite Hf.
    apply elem_of_app in Hin as [Hin | Hin]; apply elem_of_app;
      [left; exact Hin | right; apply list_elem_of_further; exact Hin]. }
  destruct outcome as [v | e].
  - destruct (all_values _) as [vs |].
    + right. right. exists s, (before ++ after), (Resolved vs). eauto.
    + right. left. eexists. split; [| split; [reflexivity | eauto]].
      intros s' Hin. apply elem_of_app in Hin as [Hin | Hin].
      * exists s'. split; [| reflexivity]. rewrite Hf.
        apply elem_of_app. left. exact Hin.
      * apply elem_of_cons in Hin as [Heq | Hin].
        -- subst s'. exists s. split; [exact Hs | reflexivity].
        -- exists s'. split; [| reflexivity]. rewrite Hf.
           apply elem_of_app. right. apply list_elem_of_further. exact Hin.
  - right. right. exists s, (before ++ after), (Rejected e). eauto.
Qed.

Section Preservation.

Variable P : Prog -> Prop.

Lemma exec_suspended_ok (p : Prog) :
  forall w, everywhere P p -> suspended_ok P w -> suspended_ok P (exec p w).
Proof.
  induction p as [| c IHc | u k IHk | ops k IHk | c IHc k IHk
                  | cb IHcb ms k IHk | id k IHk];
    intros w Hp Hw; inversion Hp; subst; simpl.
  - exact Hw.
  - exact Hw.
  - apply IHk; assumption.
  - destruct ops as [| op ops]; [apply IHk; auto |].
    intros s Hin. unfold suspend in Hin. simpl in Hin.
    apply elem_of_app in Hin as [Hin | Hin]; [exact (Hw s Hin) |].
    apply list_elem_of_singleton in Hin. subst s. simpl.
    exists (op :: ops). exact Hp.
  - apply IHk; [assumption |]. apply IHc; assumption.
  - apply IHk; auto.
  - apply IHk; assumption.
Qed.

Lemma exec_timers_ok (p : Prog) :
  forall w, everywhere P p -> timers_ok P w -> timers_ok P (exec p w).
Proof.
  induction p as [| c IHc | u k IHk | ops k IHk | c IHc k IHk
                  | cb IHcb ms k IHk | id k IHk];
    intros w Hp Hw; inversion Hp; subst; simpl.
  - exact Hw.
  - exact Hw.
  - apply IHk; assumption.
  - destruct ops as [| op ops]; [apply IHk; auto | exact Hw].
  - apply IHk; [assumption |]. apply IHc; assumption.
  - apply IHk; [auto |].
    intros id t Hl. unfold add_timer in Hl. simpl in Hl.
    destruct (decide (next_timer w = id)) as [Heq | Hne].
    + rewrite Heq, lookup_insert_eq in Hl. inversion Hl; subst. assumption.
    + rewrite lookup_insert_ne in Hl by assumption. exact (Hw _ _ Hl).
  - apply IHk; [assumption |].
    intros id' t Hl. unfold remove_timer in Hl. simpl in Hl.
    apply lookup_delete_Some in Hl as [_ Hl]. exact (Hw _ _ Hl).
Qed.

Lemma exec_cleanup_ok (p : Prog) :
  forall w, everywhere P p -> cleanup_ok P w -> cleanup_ok P (exec p w).
Proof.
  induction p as [| c IHc | u k IHk | ops k IHk | c IHc k IHk
                  | cb IHcb ms k IHk | id k IHk];
    intros w Hp Hw; inversion Hp; subst; simpl.
  - exact Hw.
  - intros c' Hc'. simpl in Hc'. congruence.
  - apply IHk; assumption.
  - destruct ops as [| op ops]; [apply IHk; auto | exact Hw].
  - apply IHk; [assumption |]. apply IHc; assumption.
  - apply IHk; auto.
  - apply IHk; assumption.
Qed.

Lemma exec_world_ok (p : Prog) (w : World) :
  everywhere P p -> world_ok P w -> world_ok P (exec p w).
Proof.
  intros Hp (Hs & Ht & Hc). repeat split;
    [apply exec_suspended_ok | apply exec_timers_ok | apply exec_cleanup_ok];
    assumption.
Qed.

Lemma resumes_everywhere (w : World) (s : Suspended) :
  suspended_ok P w -> s ∈ suspended w -> forall o, everywhere P (resume s o).
Proof.
  intros Hw Hin. destruct (Hw s Hin) as [ops Hnode].
  inversion Hnode; subst. assumption.
Qed.

Lemma set_suspended_ok (w : World) (ss : list Suspended) :
  suspended_ok P w -> resume_as_in w ss -> suspended_ok P (set_suspended ss w).
Proof.
  intros Hw Hss s Hin. simpl in Hin.
  destruct (Hss s Hin) as (s' & Hin' & Heq). rewrite Heq. exact (Hw s' Hin').
Qed.

Lemma settle_promise_suspended_ok (p : nat) (outcome : Settled JsValue)
    (w : World) :
  suspended_ok P w -> suspended_ok P (settle_promise p outcome w).
Proof.
  intros Hw.
  destruct (settle_promise_cases p outcome w)
    as [-> | [(ss & Hss & -> & _) | (s & ss & o & Hin & Hss & -> & _)]].
  - exact Hw.
  - apply set_suspended_ok; assumption.
  - apply exec_suspended_ok; [eapply resumes_everywhere; eauto |].
    apply set_suspended_ok; assumption.
Qed.

Lemma settle_promise_world_ok (p : nat) (outcome : Settled JsValue) (w : World) :
  world_ok P w -> world_ok P (settle_promise p outcome w).
Proof.
  intros (Hs & Ht & Hc).
  destruct (settle_promise_cases p outcome w)
    as [-> | [(ss & Hss & -> & _) | (s & ss & o & Hin & Hss & -> & _)]].
  - repeat split; assumption.
  - repeat split; [apply set_suspended_ok |..]; assumption.
  - apply exec_world_ok; [eapply resumes_everywhere; eauto |].
    repeat split; [apply set_suspended_ok |..]; assumption.
Qed.

Lemma step_world_ok (page : Page) (w : World) (ev : Event (Action page)) :
  page_ok P page -> world_ok P w -> world_ok P (step page w ev).
Proof.
  intros [Heff Hact] Hw. destruct ev as [| | id | a | p outcome]; simpl.
  - apply exec_world_ok; assumption.
  - destruct (cleanup w) as [c |] eqn:Hc; [| exact Hw].
    apply exec_world_ok.
    + destruct Hw as (_ & _ & Hcl). exact (Hcl c Hc).
    + destruct Hw as (Hs & Ht & _). repeat split; [exact Hs | exact Ht |].
      intros c' Hc'. discriminate.
  - destruct (timers w !! id) as [t |] eqn:Hl; [| exact Hw].
    destruct Hw as (Hs & Ht & Hc).
    apply exec_world_ok; [exact (Ht _ _ Hl) |].
    repeat split; [exact Hs | | exact Hc].
    intros id' t' Hl'. unfold fire_timer in Hl'. simpl in Hl'.
    destruct (decide (id = id')) as [Heq | Hne].
    + rewrite Heq, lookup_insert_eq in Hl'. inversion Hl'; subst.
      exact (Ht _ _ Hl).
    + rewrite lookup_insert_ne in Hl' by assumption. exact (Ht _ _ Hl').
  - apply exec_world_ok; auto.
  - apply settle_promise_world_ok. exact Hw.
Qed.

Lemma initial_world_ok : world_ok P initial_world.
Proof.
  repeat split.
  - intros s Hin. apply elem_of_nil in Hin. contradiction.
  - intros id t Hl.
    change (timers initial_world) with (∅ : gmap Z Timer) in Hl.
    rewrite lookup_empty in Hl. discriminate.
  - intros c Hc. discriminate.
Qed.

Lemma reachable_world_ok (page : Page) (w : World) :
  page_ok P page -> reachable page w -> world_ok P w.
Proof.
  intros Hpage Hr. induction Hr as [| w ev _ IH].
  - apply initial_world_ok.
  - apply step_world_ok; assumption.
Qed.

End Preservation.

(** ** What running a program can change *)

Lemma exec_starts_nothing (p : Prog) :
  forall w, everywhere starts_nothing p ->
    started (exec p w) = started w
    /\ suspended (exec p w) = suspended w
    /\ next_timer (exec p w) = next_timer w.
Proof.
  induction p as [| c IHc | u k IHk | ops k IHk | c IHc k IHk
                  | cb IHcb ms k IHk | id k IHk];
    intros w Hp; inversion Hp as [| | | | | |]; subst; simpl.
  - now repeat split.
  - now repeat split.
  - destruct (IHk (show u w)) as (E1 & E2 & E3); [assumption |].
    rewrite E1, E2, E3. now repeat split.
  - match goal with H : starts_nothing _ |- _ => destruct H end.
  - destruct (IHc w) as (E1 & E2 & E3); [assumption |].
    destruct (IHk (exec c w)) as (E4 & E5 & E6); [assumption |].
    rewrite E4, E5, E6. now repeat split.
  - match goal with H : starts_nothing _ |- _ => destruct H end.
  - destruct (IHk (remove_timer id w)) as (E1 & E2 & E3); [assumption |].
    rewrite E1, E2, E3. now repeat split.
Qed.

Lemma exec_clock (p : Prog) : forall w, clock (exec p w) = clock w.
Proof.
  induction p as [| c IHc | u k IHk | ops k IHk | c IHc k IHk
                  | cb IHcb ms k IHk | id k IHk]; intros w; simpl.
  - reflexivity.
  - reflexivity.
  - now rewrite IHk.
  - destruct ops as [| op ops]; [apply IHk | reflexivity].
  - now rewrite IHk, IHc.
  - now rewrite IHk.
  - now rewrite IHk.
Qed.

Lemma exec_no_timer (p : Prog) :
  forall w, everywhere no_timer p ->
    timers (exec p w) = timers w
    /\ next_timer (exec p w) = next_timer w
    /\ cleanup (exec p w) = cleanup w.
Proof.
  induction p as [| c IHc | u k IHk | ops k IHk | c IHc k IHk
                  | cb IHcb ms k IHk | id k IHk];
    intros w Hp; inversion Hp as [| | | | | |]; subst; simpl.
  - now repeat split.
  - match goal with H : no_timer _ |- _ => destruct H end.
  - destruct (IHk (show u w)) as (E1 & E2 & E3); [assumption |].
    rewrite E1, E2, E3. now repeat split.
  - destruct ops as [| op ops]; [apply IHk; auto | now repeat split].
  - destruct (IHc w) as (E1 & E2 & E3); [assumption |].
    destruct (IHk (exec c w)) as (E4 & E5 & E6); [assumption |].
    rewrite E4, E5, E6. now repeat split.
  - match goal with H : no_timer _ |- _ => destruct H end.
  - match goal with H : no_timer _ |- _ => destruct H end.
Qed.

(** Effects are only ever added to what is shown. *)
Lemma exec_shown (p : Prog) :
  forall w, exists more, shown (exec p w) = shown w ++ more.
Proof.
  induction p as [| c IHc | u k IHk | ops k IHk | c IHc k IHk
                  | cb IHcb ms k IHk | id k IHk]; intros w; simpl.
  - exists []. now rewrite app_nil_r.
  - exists []. now rewrite app_nil_r.
  - destruct (IHk (show u w)) as [more H]. exists (u :: more).
    rewrite H. simpl. now rewrite <- app_assoc.
  - destruct ops as [| op ops]; [apply IHk |].
    exists []. simpl. now rewrite app_nil_r.
  - destruct (IHc w) as [m1 H1]. destruct (IHk (exec c w)) as [m2 H2].
    exists (m1 ++ m2). rewrite H2, H1. now rewrite app_assoc.
  - destruct (IHk (next_timer w) (add_timer cb ms w)) as [more H].
    exists more. exact H.
  - destruct (IHk (remove_timer id w)) as [more H]. exists more. exact H.
Qed.

(** ** The programs of the pages *)

Ltac unfold_handlers :=
  cbv beta iota zeta delta
    [effect on_action Action
     TasksPage.page TasksPage.polling_effect TasksPage.polling_callback
     TasksPage.on_action TasksPage.fetchTasks TasksPage.fetchStatistics
     TasksPage.handleStartTask TasksPage.handleCancelTask
     TasksPage.handleDeleteTask TasksPage.handleViewDetails
     Dashboard.page Dashboard.mount_effect Dashboard.on_action
     Dashboard.fetchDashboardData
     DatasetsPage.page DatasetsPage.mount_effect DatasetsPage.on_action
     DatasetsPage.fetchDatasets DatasetsPage.fetchStatistics
     DatasetsPage.handleUpload DatasetsPage.handleDelete
     DatasetsPage.handlePreview
     ResultsPage.page ResultsPage.mount_effect ResultsPage.on_action
     ResultsPage.fetchResults ResultsPage.fetchStatistics
     ResultsPage.handleViewDetails ResultsPage.handleExport
     AnalysisPage.page AnalysisPage.mount_effect AnalysisPage.on_action
     AnalysisPage.fetchInitialData AnalysisPage.fetchAlgorithmDetails
     AnalysisPage.handleAlgorithmSelect AnalysisPage.handleCreateTask
     AnalysisPage.handleSubmitTask
     LoginPage.page LoginPage.redirect_effect LoginPage.on_action
     LoginPage.onFinish
     try_await try_await_all no_throw no_finally does spawn then_ foldr].

Lemma everywhere_member (P : Prog -> Prop) v key body throw k :
  everywhere P (throw TypeError) ->
  (forall x, everywhere P (body x throw k)) ->
  everywhere P (member v key body throw k).
Proof. intros Ht Hb. unfold member. destruct v; auto. Qed.

Lemma everywhere_opt_slice (P : Prog -> Prop) v body throw k :
  everywhere P (throw TypeError) ->
  (forall x, everywhere P (body x throw k)) ->
  everywhere P (opt_slice_0_5 v body throw k).
Proof. intros Ht Hb. unfold opt_slice_0_5. destruct v; auto. Qed.

(** Walk a program, constructor by constructor; [side] settles the
    property at each node. *)
Ltac walk side :=
  repeat lazymatch goal with
  | |- everywhere _ Return => apply ew_Return
  | |- everywhere _ (ReturnCleanup _) => apply ew_ReturnCleanup
  | |- everywhere _ (Do _ _) => apply ew_Do
  | |- everywhere _ (Await _ _) => apply ew_Await
  | |- everywhere _ (Spawn _ _) => apply ew_Spawn
  | |- everywhere _ (SetInterval _ _ _) => apply ew_SetInterval
  | |- everywhere _ (ClearInterval _ _) => apply ew_ClearInterval
  | |- everywhere _ (member _ _ _ _ _) => apply everywhere_member
  | |- everywhere _ (opt_slice_0_5 _ _ _ _) => apply everywhere_opt_slice
  | |- everywhere _ (match ?x with _ => _ end) => destruct x
  | |- everywhere _ _ => progress cbv beta iota
  | |- forall _, _ => intro
  | |- True => exact I
  | |- _ => side
  end.



Ltac side_cleanup :=
  idtac;
  lazymatch goal with
  | |- cleanup_starts_nothing _ => cbv beta iota delta [cleanup_starts_nothing]
  | |- starts_nothing _ => exact I
  end.

Lemma pages_cleanup_starts_nothing (page : Page) :
  is_page page -> page_ok cleanup_starts_nothing page.
Proof.
  intros Hpage. destruct Hpage; split; unfold_handlers; walk side_cleanup.
Qed.

(** ** Failures start nothing *)


Lemma exec_cleanup_silent (p : Prog) :
  forall w, everywhere cleanup_starts_nothing p ->
    cleanup_silent w -> cleanup_silent (exec p w).
Proof.
  induction p as [| c IHc | u k IHk | ops k IHk | c IHc k IHk
                  | cb IHcb ms k IHk | id k IHk];
    intros w Hp Hw; inversion Hp as [| ? Hc | | | | |]; subst; simpl.
  - exact Hw.
  - intros c' Hc'. simpl in Hc'. inversion Hc'; subst. exact Hc.
  - apply IHk; assumption.
  - destruct ops as [| op ops]; [apply IHk; auto | exact Hw].
  - apply IHk; [assumption |]. apply IHc; assumption.
  - apply IHk; auto.
  - apply IHk; assumption.
Qed.

Lemma step_cleanup_silent (page : Page) (w : World) (ev : Event (Action page)) :
  page_ok cleanup_starts_nothing page ->
  world_ok cleanup_starts_nothing w ->
  cleanup_silent w -> cleanup_silent (step page w ev).
Proof.
  intros [Heff Hact] (Hs & Ht & Hc) Hw.
  destruct ev as [| | id | a | p outcome]; simpl.
  - apply exec_cleanup_silent; assumption.
  - destruct (cleanup w) as [c |] eqn:Hcw; [| exact Hw].
    apply exec_cleanup_silent; [exact (Hc c Hcw) |].
    intros c' Hc'. discriminate.
  - destruct (timers w !! id) as [t |] eqn:Hl; [| exact Hw].
    apply exec_cleanup_silent; [exact (Ht _ _ Hl) | exact Hw].
  - apply exec_cleanup_silent; auto.
  - destruct (settle_promise_cases p outcome w)
      as [-> | [(ss & Hss & -> & _) | (s & ss & o & Hin & Hss & -> & _)]].
    + exact Hw.
    + exact Hw.
    + apply exec_cleanup_silent; [| exact Hw].
      eapply resumes_everywhere; eauto.
Qed.

Lemma reachable_cleanup_silent (page : Page) (w : World) :
  is_page page -> reachable page w -> cleanup_silent w.
Proof.
  intros Hpage Hr. induction Hr as [| w ev Hr IH].
  - intros c Hc. discriminate.
  - apply step_cleanup_silent; [| | exact IH].
    + apply pages_cleanup_starts_nothing. exact Hpage.
    + apply (reachable_world_ok cleanup_starts_nothing page w); [| exact Hr].
      apply pages_cleanup_starts_nothing. exact Hpage.
Qed.





(** ** Failures and toasts *)

Ltac side_toast :=
  idtac;
  lazymatch goal with
  | |- toasts_rejection _ =>
      cbv beta iota delta [toasts_rejection existsb is_statistics orb];
      first [ exact I
            | intros Hstat; discriminate Hstat
            | intros _ ?; eexists _, _; reflexivity ]
  end.

Lemma pages_toast_rejections (page : Page) :
  is_page page -> page_ok toasts_rejection page.
Proof.
  intros Hpage. destruct Hpage; split; unfold_handlers; walk side_toast.
Qed.

Lemma toast_first_shown (p : Prog) (w : World) :
  toast_first p ->
  exists content more, shown (exec p w) = shown w ++ message_error content :: more.
Proof.
  intros (content & rest & ->). simpl.
  destruct (exec_shown rest (show (message_error content) w)) as [more H].
  exists content, more. rewrite H. simpl. now rewrite <- app_assoc.
Qed.

(** C4, as stated, fails for the statistics fetches: on the task page,
    when the statistics request started at mount is rejected, the only
    effect is a line on the console; no toast is shown. *)
Lemma C4_statistics_counterexample :
  let w := step TasksPage.page initial_world Mount in
  let w' := step TasksPage.page w (Settle 1 (Rejected (mkError None))) in
  started w !! 1%nat = Some (api ApiClient.GetTaskStatistics)
  /\ drop (length (shown w)) (shown w')
     = [console_error "获取统计信息失败:" (AxiosErr (mkError None))]
  /\ existsb is_toast (shown w') = false.
Proof. vm_compute. repeat split; reflexivity. Qed.

(** C4, amended.  In every page, at every awaited operation other than
    a statistics fetch, a rejection is surfaced to the user as an error
    toast: the first thing the handler does is [message.error].  The
    statistics fetches of the task, dataset and result pages only log
    the error to the console; the dashboard, whose single
    [Promise.all] includes the statistics fetches, puts an error text
    into the page state and logs to the console. *)
Theorem C4_failures_toast_except_statistics :
  (forall page : Page, is_page page -> page_ok toasts_rejection page)
  /\ (forall (p : Prog) (w : World),
      toast_first p ->
      exists content more,
        shown (exec p w) = shown w ++ message_error content :: more)
  /\ (forall e : AxiosError,
      (exists k, TasksPage.fetchStatistics
                 = Await [api ApiClient.GetTaskStatistics] k
                 /\ k (Rejected e)
                    = Do (console_error "获取统计信息失败:" (AxiosErr e)) Return)
      /\ (exists k, DatasetsPage.fetchStatistics
                    = Await [api ApiClient.GetDatasetStatistics] k
                    /\ k (Rejected e)
                       = Do (console_error "获取统计信息失败:" (AxiosErr e)) Return)
      /\ (exists k, ResultsPage.fetchStatistics
                    = Await [api ApiClient.GetResultStatistics] k
                    /\ k (Rejected e)
                       = Do (console_error "获取统计信息失败:" (AxiosErr e)) Return)
      /\ (exists ops k,
            Dashboard.fetchDashboardData
            = Do (setState "setLoading" (JBool true)) (Await ops k)
            /\ existsb is_statistics ops = true
            /\ k (Rejected e)
               = Do (setState "setError" (JStr "获取仪表板数据失败"))
                   (Do (console_error "Dashboard data fetch error:" (AxiosErr e))
                      (Do (setState "setLoading" (JBool false)) Return)))).
Proof.
  split; [exact pages_toast_rejections |].
  split; [exact toast_first_shown |].
  intros e. repeat split; repeat eexists; reflexivity.
Qed.

Lemma C4_failures_toast_except_statistics_witness :
  page_ok toasts_rejection TasksPage.page.
Proof.
  exact (proj1 C4_failures_toast_except_statistics TasksPage.page page_tasks).
Defined.

(** ** The polling timer of the task page *)

Lemma tasks_actions_no_timer (a : TasksPage.TasksAction) :
  everywhere no_timer (TasksPage.on_action a).
Proof. destruct a; unfold_handlers; walk ltac:(idtac; exact I). Qed.

Lemma polling_callback_no_timer : everywhere no_timer TasksPage.polling_callback.
Proof. unfold_handlers; walk ltac:(idtac; exact I). Qed.

Lemma mount_polling_invariant :
  polling_invariant 0 (step TasksPage.page initial_world Mount).
Proof.
  repeat split.
  intros s Hin.
  change (suspended (step TasksPage.page initial_world Mount))
    with (suspended (exec TasksPage.fetchStatistics
                       (exec TasksPage.fetchTasks initial_world))) in Hin.
  revert s Hin. apply exec_suspended_ok; [| apply exec_suspended_ok].
  - unfold_handlers; walk ltac:(idtac; exact I).
  - unfold_handlers; walk ltac:(idtac; exact I).
  - intros s Hin. apply elem_of_nil in Hin. contradiction.
Qed.

Lemma firings_cons {A} (id : Z) (ev : Event A) (evs : list (Event A)) :
  firings id (ev :: evs) = firings id [ev] + firings id evs.
Proof. destruct ev; simpl; lia. Qed.

Lemma step_polling_invariant (n : Z) (w : World)
    (ev : Event TasksPage.TasksAction) :
  polling_invariant n w -> is_lifecycle ev = false ->
  polling_invariant (n + firings 1 [ev]) (step TasksPage.page w ev).
Proof.
  intros (Hk & Ht & Hc & Hn & Hs) Hev.
  assert (Hkeep : forall m p w0,
             everywhere no_timer p ->
             clock w0 = 5000 * m ->
             timers w0
             = {[ 1 := mkTimer 5000 TasksPage.polling_callback (5000 * (m + 1)) ]} ->
             cleanup w0 = cleanup w ->
             next_timer w0 = next_timer w -> suspended_ok no_timer w0 ->
             polling_invariant m (exec p w0)).
  { intros m p w0 Hp E0 E1 E2 E3 Hs0.
    destruct (exec_no_timer p w0 Hp) as (F1 & F2 & F3).
    unfold polling_invariant. rewrite exec_clock, F1, F2, F3, E0, E1, E2, E3.
    repeat split; try assumption. apply exec_suspended_ok; assumption. }
  destruct ev as [| | id | a | p outcome]; try discriminate.
  - change (step TasksPage.page w (Fire id))
      with (match timers w !! id with
            | Some t => exec (callback t) (fire_timer id t w)
            | None => w
            end).
    rewrite Ht. destruct (decide (id = 1)) as [-> | Hne].
    + rewrite lookup_singleton_eq.
      replace (n + firings 1 [Fire 1]) with (n + 1) by reflexivity.
      apply Hkeep; auto.
      * apply polling_callback_no_timer.
      * cbn [fire_timer clock due]. rewrite Hk. lia.
      * cbn [fire_timer timers due period callback].
        rewrite Ht, insert_singleton_eq. do 2 f_equal. lia.
    + rewrite lookup_singleton_ne by congruence.
      replace (n + firings 1 [Fire id]) with n.
      * repeat split; assumption.
      * cbn [firings]. destruct (Z.eqb_spec id 1); [contradiction | lia].
  - replace (n + firings 1 [User a]) with n by (cbn [firings]; lia).
    change (step TasksPage.page w (User a))
      with (exec (TasksPage.on_action a) w).
    apply Hkeep; auto. apply tasks_actions_no_timer.
  - replace (n + firings 1 [Settle p outcome]) with n by (cbn [firings]; lia).
    change (step TasksPage.page w (Settle p outcome))
      with (settle_promise p outcome w).
    destruct (settle_promise_cases p outcome w)
      as [-> | [(ss & Hss & -> & _) | (s & ss & o & Hin & Hss & -> & _)]].
    + repeat split; assumption.
    + repeat split; try assumption. apply set_suspended_ok; assumption.
    + apply Hkeep; auto.
      * eapply resumes_everywhere; eauto.
      * apply set_suspended_ok; assumption.
Qed.

Lemma run_polling_invariant (evs : list (Event TasksPage.TasksAction)) :
  forall n w,
    polling_invariant n w ->
    forallb (fun ev => negb (is_lifecycle ev)) evs = true ->
    polling_invariant (n + firings 1 evs)
      (fold_left (step TasksPage.page) evs w).
Proof.
  induction evs as [| ev evs IH]; intros n w Hw Hevs.
  - simpl. rewrite Z.add_0_r. exact Hw.
  - simpl in Hevs. apply andb_prop in Hevs as [Hev Hevs].
    rewrite firings_cons, Z.add_assoc.
    change (fold_left (step TasksPage.page) (ev :: evs) w)
      with (fold_left (step TasksPage.page) evs (step TasksPage.page w ev)).
    apply IH; [| exact Hevs].
    apply step_polling_invariant; [exact Hw |].
    now apply negb_true_iff in Hev.
Qed.

(** C3.  On the task-monitoring page no timer exists before the page
    mounts; mounting creates a single timer of period 5000 ms whose
    callback is the task-list fetch.  Whatever happens between mounting
    and unmounting (fetches failing or succeeding, fetches still in
    flight, user actions) the timer stays the only one and keeps its
    period and callback, and after [n] firings the clock stands at
    [5000 * n] ms with the next firing due at [5000 * (n + 1)]: a fixed
    interval, no backoff and no cancellation.  Each firing starts
    exactly one task-list fetch, whether or not an earlier one is still
    in flight.  Unmounting clears the timer. *)
Theorem C3_polling_timer :
  forall evs : list (Event TasksPage.TasksAction),
    forallb (fun ev => negb (is_lifecycle ev)) evs = true ->
    let w := run TasksPage.page (Mount :: evs) initial_world in
    let n := firings 1 evs in
    timers initial_world = ∅
    /\ clock w = 5000 * n
    /\ timers w
       = {[ 1 := mkTimer 5000 TasksPage.polling_callback (5000 * (n + 1)) ]}
    /\ started_by TasksPage.page w (Fire 1) = [api ApiClient.GetTasks]
    /\ clock (step TasksPage.page w (Fire 1)) = 5000 * (n + 1)
    /\ timers (step TasksPage.page w Unmount) = ∅.
Proof.
  intros evs Hevs w n.
  assert (Hinv : polling_invariant n w).
  { change (polling_invariant (0 + firings 1 evs)
              (fold_left (step TasksPage.page) evs
                 (step TasksPage.page initial_world Mount))).
    apply run_polling_invariant; [apply mount_polling_invariant | exact Hevs]. }
  destruct Hinv as (Hk & Ht & Hc & Hn & Hs).
  split; [reflexivity |]. split; [exact Hk |]. split; [exact Ht |].
  split; [| split].
  - unfold started_by. simpl. rewrite Ht, lookup_singleton_eq.
    apply drop_app_length.
  - simpl. rewrite Ht, lookup_singleton_eq, exec_clock. simpl.
    rewrite Hk. lia.
  - simpl. rewrite Hc. simpl. rewrite Ht. apply delete_singleton_eq.
Qed.

Lemma C3_polling_timer_witness :
  let evs : list (Event TasksPage.TasksAction) :=
    [Settle 0 (Rejected (mkError None)); Fire 1; Fire 1;
     User TasksPage.ClickRefresh] in
  let w := run TasksPage.page (Mount :: evs) initial_world in
  timers initial_world = ∅
  /\ clock w = 5000 * 2
  /\ timers w = {[ 1 := mkTimer 5000 TasksPage.polling_callback (5000 * 3) ]}
  /\ started_by TasksPage.page w (Fire 1) = [api ApiClient.GetTasks]
  /\ clock (step TasksPage.page w (Fire 1)) = 5000 * 3
  /\ timers (step TasksPage.page w Unmount) = ∅.
Proof.
  exact (C3_polling_timer
           [Settle 0 (Rejected (mkError None)); Fire 1; Fire 1;
            User TasksPage.ClickRefresh] eq_refl).
Defined.

(** ** Pure helpers of the pages *)

(** C9.  For every score (any double, NaN included) the quality color
    and the quality label of the results page agree: the color is
    [success] exactly when the label is 优秀, [processing] exactly when
    it is 良好, [warning] exactly when it is 一般 and [error] exactly
    when it is 较差; both functions test the same thresholds 0.7, 0.3
    and 0.1 in the same order. *)
Theorem C9_quality_color_agrees_with_status :
  forall score : float,
    (ResultsPage.getQualityColor score = "success"
     <-> ResultsPage.getQualityStatus score = "优秀")
    /\ (ResultsPage.getQualityColor score = "processing"
        <-> ResultsPage.getQualityStatus score = "良好")
    /\ (ResultsPage.getQualityColor score = "warning"
        <-> ResultsPage.getQualityStatus score = "一般")
    /\ (ResultsPage.getQualityColor score = "error"
        <-> ResultsPage.getQualityStatus score = "较差").
Proof.
  intros score.
  unfold ResultsPage.getQualityColor, ResultsPage.getQualityStatus.
  destruct (0.7 <? score)%float; [| destruct (0.3 <? score)%float;
    [| destruct (0.1 <? score)%float]];
    repeat split; intros H; first [reflexivity | discriminate H].
Qed.

Lemma own_None_same_keys {A B} (t1 : list (string * A))
    (t2 : list (string * B)) (key : string) :
  map fst t1 = map fst t2 -> own t1 key = None -> own t2 key = None.
Proof.
  revert t2. induction t1 as [| [k1 a] t1 IH]; intros [| [k2 b] t2] Hk Hown;
    try discriminate; [reflexivity |].
  injection Hk as Hk1 Hk. subst k2.
  cbn [own] in *. destruct (String.eqb k1 key); [discriminate |].
  apply IH; assumption.
Qed.

(** The fallback of [getStatusConfig] for the strings that are neither a
    known status nor the name of a member of [Object.prototype]. *)
Lemma getStatusConfig_fallback (status : string) :
  own TasksPage.configs status = None ->
  inherited status = false ->
  TasksPage.getStatusConfig status
  = Entry (TasksPage.mkStatusConfig "default" status None)
  /\ TasksPage.render_status status = mkTag (Some "default") (Some status)
  /\ Dashboard.render_status status = mkTag (Some "default") (Some status).
Proof.
  intros Hown Hinh.
  assert (Hown' : own Dashboard.statusConfig status = None).
  { apply (own_None_same_keys TasksPage.configs); [reflexivity | exact Hown]. }
  unfold TasksPage.render_status, Dashboard.render_status,
    TasksPage.getStatusConfig, lookup_or.
  rewrite Hown, Hown', Hinh. repeat split.
Qed.

Lemma getStatusConfig_known :
  TasksPage.render_status "pending" = mkTag (Some "orange") (Some "待处理")
  /\ TasksPage.render_status "running" = mkTag (Some "green") (Some "运行中")
  /\ TasksPage.render_status "completed" = mkTag (Some "blue") (Some "已完成")
  /\ TasksPage.render_status "failed" = mkTag (Some "red") (Some "失败")
  /\ TasksPage.render_status "cancelled" = mkTag (Some "default") (Some "已取消")
  /\ Dashboard.render_status "pending" = mkTag (Some "orange") (Some "待处理")
  /\ Dashboard.render_status "running" = mkTag (Some "green") (Some "运行中")
  /\ Dashboard.render_status "completed" = mkTag (Some "blue") (Some "已完成")
  /\ Dashboard.render_status "failed" = mkTag (Some "red") (Some "失败")
  /\ Dashboard.render_status "cancelled" = mkTag (Some "default") (Some "已取消").
Proof. repeat split. Qed.

(** C10 at the status string [constructor]: it is none of the five known
    statuses, yet [configs[status]] finds the member [constructor] that
    every object literal inherits from [Object.prototype]; that value is
    truthy, so the fallback is not taken and the value returned is the
    built-in, whose [color] and [text] are [undefined].  The claim asks
    for color [default] and the raw string as text; nothing is thrown. *)
Theorem C10_getStatusConfig_constructor :
  own TasksPage.configs "constructor" = None
  /\ TasksPage.getStatusConfig "constructor" = Builtin "constructor"
  /\ TasksPage.render_status "constructor" = mkTag None None
  /\ TasksPage.render_status "constructor"
     <> mkTag (Some "default") (Some "constructor")
  /\ Dashboard.render_status "constructor" = mkTag None None.
Proof. repeat split. discriminate. Qed.

(* ===================================================================== *)
(** * Part III: further properties of the code *)
(* ===================================================================== *)

(** ** The HTTP client, continued *)

Section ClientMore.

Import ApiClient.

(** The request interceptor touches nothing but the [Authorization]
    header: verb, URL, body, timeout, response type and every other
    header pass through, and running it twice changes nothing more. *)
Theorem request_interceptor_keeps_rest (b : Browser) (config : RequestConfig) :
  cfg_method (request_interceptor b config) = cfg_method config
  /\ cfg_url (request_interceptor b config) = cfg_url config
  /\ cfg_data (request_interceptor b config) = cfg_data config
  /\ cfg_timeout (request_interceptor b config) = cfg_timeout config
  /\ cfg_responseType (request_interceptor b config) = cfg_responseType config
  /\ (forall h, h <> "Authorization" ->
        cfg_headers (request_interceptor b config) !! h
        = cfg_headers config !! h)
  /\ request_interceptor b (request_interceptor b config)
     = request_interceptor b config.
Proof.
  unfold request_interceptor.
  destruct (getItem b "access_token") as [token |]; [| repeat split].
  destruct (truthy (JStr token)); [| repeat split].
  cbn [cfg_method cfg_url cfg_data cfg_timeout cfg_responseType cfg_headers].
  repeat split.
  - intros h Hh. apply lookup_insert_ne. congruence.
  - now rewrite insert_insert_eq.
Qed.



(** Once any call was answered 401, the next call through the client
    goes out without an [Authorization] header, whatever token was
    stored before; the forced logout leaves every other localStorage
    key as it was. *)
Theorem no_token_after_unauthorized backend (c1 c2 : Call) (w : World)
    (config1 : RequestConfig) (r : AxiosResponse) :
  sent (fst (invoke backend c1 w)) = sent w ++ [config1] ->
  backend config1 = NetResponse r ->
  status r = 401 ->
  let w1 := fst (invoke backend c1 w) in
  (exists config2,
      sent (fst (invoke backend c2 w1)) = sent w1 ++ [config2]
      /\ cfg_headers config2 !! "Authorization" = None)
  /\ getItem (browser w1) "access_token" = None
  /\ forall key, key <> "access_token" ->
       getItem (browser w1) key = getItem (browser w) key.
Proof.
  intros Hsent Hnet H401 w1.
  destruct (invoke_is_one_request backend c1) as (cfg1 & _ & _ & Hinv1).
  assert (Hcfg : config1 = request_interceptor (browser w) cfg1).
  { rewrite Hinv1, bind_data_sent, request_sent in Hsent.
    apply app_inv_head in Hsent. congruence. }
  assert (Hb : browser w1
               = set_location_href "/login"
                   (removeItem "access_token" (browser w))).
  { unfold w1. rewrite Hinv1, bind_data_browser, request_browser.
    rewrite <- Hcfg, Hnet. unfold settle. rewrite H401.
    change (validateStatus 401) with false.
    cbn [is_unauthorized response]. rewrite H401. reflexivity. }
  assert (Hgone : getItem (browser w1) "access_token" = None).
  { rewrite Hb. unfold getItem. simpl. apply lookup_delete_eq. }
  split; [| split; [exact Hgone |]].
  - destruct (invoke_is_one_request backend c2) as (cfg2 & _ & Hnone & Hinv2).
    exists (request_interceptor (browser w1) cfg2).
    rewrite Hinv2, bind_data_sent, request_sent. split; [reflexivity |].
    unfold request_interceptor. rewrite Hgone. exact Hnone.
  - intros key Hkey. rewrite Hb. unfold getItem. simpl.
    apply lookup_delete_ne. congruence.
Qed.

Lemma no_token_after_unauthorized_witness :
  let backend := fun _ : RequestConfig => NetResponse (mkResponse 401 JNull) in
  let w := mkWorld (mkBrowser {[ "access_token" := "abc"; "theme" := "dark" ]} "/") [] in
  let w1 := fst (invoke backend GetTasks w) in
  (exists config2,
      sent (fst (invoke backend GetProfile w1)) = sent w1 ++ [config2]
      /\ cfg_headers config2 !! "Authorization" = None)
  /\ getItem (browser w1) "access_token" = None
  /\ forall key, key <> "access_token" ->
       getItem (browser w1) key = getItem (browser w) key.
Proof.
  exact (no_token_after_unauthorized
           (fun _ => NetResponse (mkResponse 401 JNull)) GetTasks GetProfile
           (mkWorld (mkBrowser {[ "access_token" := "abc"; "theme" := "dark" ]} "/") [])
           _ (mkResponse 401 JNull) eq_refl eq_refl eq_refl).
Defined.

End ClientMore.

(** ** Endpoint paths *)

Lemma length_append (a b : string) :
  String.length (a +:+ b) = (String.length a + String.length b)%nat.
Proof.
  induction a as [| c a IH]; [reflexivity |].
  change (S (String.length (a +:+ b))
          = S (String.length a + String.length b)).
  now rewrite IH.
Qed.

Lemma append_inj_r (a b s : string) : a +:+ s = b +:+ s -> a = b.
Proof.
  revert b. induction a as [| c a IH]; intros [| c' b] H.
  - reflexivity.
  - apply (f_equal String.length) in H. rewrite !length_append in H.
    cbn [String.length] in H. lia.
  - apply (f_equal String.length) in H. rewrite !length_append in H.
    cbn [String.length] in H. lia.
  - change (String c (a +:+ s) = String c' (b +:+ s)) in H.
    injection H as -> H. f_equal. apply IH. exact H.
Qed.

Lemma pretty_N_char_digit (x : N) : digit_or_dash (pretty_N_char x) = true.
Proof.
  destruct x as [| p]; [reflexivity |].
  do 4 (try destruct p as [p | p |]; try reflexivity).
Qed.

Lemma pretty_N_go_numeric (x : N) :
  forall s, (x = 0%N -> starts_numeric s = true) ->
            starts_numeric (pretty_N_go x s) = true.
Proof.
  induction x as [x IH] using (well_founded_induction N.lt_wf_0).
  intros s Hs. destruct (decide (x = 0%N)) as [-> | Hx].
  - rewrite pretty_N_go_0. auto.
  - rewrite pretty_N_go_step by lia. apply IH.
    + apply N.div_lt; lia.
    + intros _. apply pretty_N_char_digit.
Qed.

(** A printed id begins with a digit or a minus sign. *)
Lemma Number_toString_numeric (n : Z) :
  starts_numeric (Number_toString n) = true.
Proof.
  assert (HN : forall x : N, starts_numeric (pretty x) = true).
  { intros x. unfold pretty, pretty_N. destruct (decide (x = 0%N)); [reflexivity |].
    apply pretty_N_go_numeric. intros ?; contradiction. }
  unfold Number_toString, pretty, pretty_Z.
  destruct n as [| p | p]; [reflexivity | apply (HN (Npos p)) | reflexivity].
Qed.

Lemma Number_toString_inj (i j : Z) :
  Number_toString i = Number_toString j -> i = j.
Proof. apply pretty_Z_inj. Qed.

(** Two calls of the same by-id method reach the same verb and path only
    for the same id (likewise the preview with equal limits and the
    export with equal formats); and a record fetched by id is never
    mistaken for one of the fixed sub-resources [/tasks/running],
    [/tasks/statistics], [/tasks/service/status],
    [/datasets/statistics], [/results/statistics]. *)
Theorem endpoints_distinguish_ids :
  Forall (fun f : Z -> ApiClient.Call =>
            forall i j, ApiClient.endpoint (f i) = ApiClient.endpoint (f j) ->
                        i = j) by_id
  /\ (forall i j l,
        ApiClient.endpoint (ApiClient.PreviewDataset i l)
        = ApiClient.endpoint (ApiClient.PreviewDataset j l) -> i = j)
  /\ (forall i j f,
        ApiClient.endpoint (ApiClient.ExportResult i f)
        = ApiClient.endpoint (ApiClient.ExportResult j f) -> i = j)
  /\ (forall i,
        (ApiClient.endpoint (ApiClient.GetTask i)
         ∉ [ApiClient.endpoint ApiClient.GetRunningTasks;
            ApiClient.endpoint ApiClient.GetTaskStatistics;
            ApiClient.endpoint ApiClient.GetTaskServiceStatus])
        /\ ApiClient.endpoint (ApiClient.GetDataset i)
           <> ApiClient.endpoint ApiClient.GetDatasetStatistics
        /\ ApiClient.endpoint (ApiClient.GetResult i)
           <> ApiClient.endpoint ApiClient.GetResultStatistics).
Proof.
  assert (Hplain : forall pre i j,
             pre +:+ Number_toString i = pre +:+ Number_toString j -> i = j).
  { intros pre i j H. apply String.app_inj in H. now apply Number_toString_inj. }
  assert (Hsuf : forall pre suf i j,
             pre +:+ Number_toString i +:+ suf
             = pre +:+ Number_toString j +:+ suf -> i = j).
  { intros pre suf i j H. apply String.app_inj in H.
    apply append_inj_r in H. now apply Number_toString_inj. }
  assert (Hfix : forall i rest (c : Ascii.ascii),
             digit_or_dash c = false ->
             Number_toString i <> String c rest).
  { intros i rest c Hc H.
    pose proof (Number_toString_numeric i) as Hn. rewrite H in Hn.
    simpl in Hn. congruence. }
  split; [| split; [| split]].
  - unfold by_id. repeat constructor; intros i j H; injection H as H;
      first [exact (Hplain _ _ _ H) | exact (Hsuf _ _ _ _ H)].
  - intros i j l H. injection H as H. exact (Hsuf _ _ _ _ H).
  - intros i j f H. injection H as H. exact (Hsuf _ _ _ _ H).
  - intros i. repeat split.
    + intros Hin. repeat (apply elem_of_cons in Hin as [Hin | Hin]);
        [| | | now apply elem_of_nil in Hin];
        injection Hin as Hin; refine (Hfix i _ _ _ Hin); reflexivity.
    + intros H. injection H as H. refine (Hfix i _ _ _ H). reflexivity.
    + intros H. injection H as H. refine (Hfix i _ _ _ H). reflexivity.
Qed.

(** ** Handlers: guards, payloads and what follows a settlement *)


Lemma own_set_property_eq (props : list (string * JsValue)) key v :
  own (set_property props key v) key = Some v.
Proof.
  induction props as [| [k x] props IH]; cbn [set_property own].
  - now rewrite String.eqb_refl.
  - destruct (String.eqb k key) eqn:E; cbn [own]; rewrite E; [reflexivity | exact IH].
Qed.

Lemma own_set_property_ne (props : list (string * JsValue)) key key' v :
  key' <> key ->
  own (set_property props key v) key' = own props key'.
Proof.
  intros Hne. induction props as [| [k x] props IH]; cbn [set_property own].
  - destruct (String.eqb_spec key key'); [congruence | reflexivity].
  - destruct (String.eqb_spec k key) as [-> | Hk]; cbn [own].
    + destruct (String.eqb_spec key key'); [congruence | reflexivity].
    + destruct (String.eqb k key'); [reflexivity | exact IH].
Qed.

(** Submitting the task form starts exactly one [createTask] whose data
    carries the algorithm selected on the page under [algorithm_name],
    whatever the form held under that name, and every other field of
    the form unchanged. *)
Theorem submitted_task_carries_selection (selectedAlgorithm : string)
    (values : JsValue) (w : World) :
  exists taskData,
    started (exec (AnalysisPage.handleSubmitTask selectedAlgorithm values) w)
    = started w ++ [api (ApiClient.CreateTask taskData)]
    /\ opt_get taskData "algorithm_name" = JStr selectedAlgorithm
    /\ forall key, key <> "algorithm_name" ->
         opt_get taskData key = opt_get values key.
Proof.
  exists (spread_with values "algorithm_name" (JStr selectedAlgorithm)).
  split; [reflexivity |]. unfold spread_with.
  destruct values; try (split; [reflexivity |];
    intros key Hkey; cbn [opt_get own];
    destruct (String.eqb_spec "algorithm_name" key); [congruence | reflexivity]).
  split.
  - cbn [opt_get]. now rewrite own_set_property_eq.
  - intros key Hkey. cbn [opt_get]. now rewrite own_set_property_ne.
Qed.

Lemma ends_loading_off_member v key body throw k :
  ends_loading_off (throw TypeError) ->
  (forall x, ends_loading_off (body x throw k)) ->
  ends_loading_off (member v key body throw k).
Proof. intros Ht Hb. unfold member. destruct v; auto. Qed.

Lemma ends_loading_off_opt_slice v body throw k :
  ends_loading_off (throw TypeError) ->
  (forall x, ends_loading_off (body x throw k)) ->
  ends_loading_off (opt_slice_0_5 v body throw k).
Proof. intros Ht Hb. unfold opt_slice_0_5. destruct v; auto. Qed.

Ltac loading_off :=
  unfold_handlers; cbn [after_await];
  repeat lazymatch goal with
  | |- ends_loading_off (member _ _ _ _ _) => apply ends_loading_off_member
  | |- ends_loading_off (opt_slice_0_5 _ _ _ _) =>
      apply ends_loading_off_opt_slice
  | |- ends_loading_off (match ?x with _ => _ end) => destruct x
  | |- forall _, _ => intro
  | |- ends_loading_off _ => progress cbv beta iota
  end;
  try (intros w; cbn [exec]; apply last_snoc).

(** The loading flag is always switched off again: in the list fetches
    of the task, dataset and result pages, the dashboard fetch, the
    task submission and the login, whatever the awaited operation
    settles with (resolved, also with a malformed body, or rejected) the
    last effect of the handler is [setLoading(false)]. *)
Theorem loading_always_cleared (o : Settled (list JsValue)) :
  ends_loading_off (after_await TasksPage.fetchTasks o)
  /\ ends_loading_off (after_await DatasetsPage.fetchDatasets o)
  /\ ends_loading_off (after_await ResultsPage.fetchResults o)
  /\ ends_loading_off (after_await Dashboard.fetchDashboardData o)
  /\ (forall selectedAlgorithm values,
        ends_loading_off
          (after_await (AnalysisPage.handleSubmitTask selectedAlgorithm values) o))
  /\ (forall username password,
        ends_loading_off (after_await (LoginPage.onFinish username password) o)).
Proof.
  repeat split; intros; loading_off.
Qed.

(** After a successful change the lists are fetched again: starting or
    cancelling a task refetches the task list; deleting a task refetches
    the task list and the task statistics; uploading or deleting a
    dataset refetches the dataset list and the dataset statistics.  Each
    shows its success toast first.  Creating a task and exporting a
    result fetch nothing. *)
Theorem success_refreshes_lists (vs : list JsValue) (w : World) :
  (forall i,
      let w' := exec (after_await (TasksPage.handleStartTask i) (Resolved vs)) w in
      started w' = started w ++ [api ApiClient.GetTasks]
      /\ shown w' = shown w ++ [message_success (JStr "任务启动成功")])
  /\ (forall i,
      let w' := exec (after_await (TasksPage.handleCancelTask i) (Resolved vs)) w in
      started w' = started w ++ [api ApiClient.GetTasks]
      /\ shown w' = shown w ++ [message_success (JStr "任务取消成功")])
  /\ (forall i,
      let w' := exec (after_await (TasksPage.handleDeleteTask i) (Resolved vs)) w in
      started w'
      = started w ++ [api ApiClient.GetTasks; api ApiClient.GetTaskStatistics]
      /\ shown w' = shown w ++ [message_success (JStr "删除成功")])
  /\ (forall first rest name description,
      let w' := exec (after_await
                        (DatasetsPage.handleUpload (Some (first :: rest))
                           name description) (Resolved vs)) w in
      started w'
      = started w ++ [api ApiClient.GetDatasets;
                      api ApiClient.GetDatasetStatistics]
      /\ shown w'
         = shown w ++ [message_success (JStr "数据集上传成功");
                       setState "setUploadModalVisible" (JBool false);
                       ui_other "form.resetFields()";
                       setState "setLoading" (JBool true)])
  /\ (forall i,
      let w' := exec (after_await (DatasetsPage.handleDelete i) (Resolved vs)) w in
      started w'
      = started w ++ [api ApiClient.GetDatasets;
                      api ApiClient.GetDatasetStatistics]
      /\ shown w'
         = shown w ++ [message_success (JStr "删除成功");
                       setState "setLoading" (JBool true)])
  /\ (forall s values,
      started (exec (after_await (AnalysisPage.handleSubmitTask s values)
                       (Resolved vs)) w) = started w)
  /\ (forall i f,
      started (exec (after_await (ResultsPage.handleExport i f)
                       (Resolved vs)) w) = started w).
Proof.
  repeat split; intros; cbn; rewrite <- ?app_assoc; reflexivity.
Qed.

(** ** What a page can show *)

Lemma exec_shows_only (Q : Ui -> Prop) (p : Prog) :
  forall w, everywhere (shows_only Q) p ->
            Forall Q (shown w) -> Forall Q (shown (exec p w)).
Proof.
  induction p as [| c IHc | u k IHk | ops k IHk | c IHc k IHk
                  | cb IHcb ms k IHk | id k IHk];
    intros w Hp Hw; inversion Hp as [| | ? ? Hq | | | |]; subst; simpl.
  - exact Hw.
  - exact Hw.
  - apply IHk; [assumption |]. simpl. apply Forall_app. split; [exact Hw |].
    constructor; [exact Hq | constructor].
  - destruct ops as [| op ops]; [apply IHk; auto | exact Hw].
  - apply IHk; [assumption |]. apply IHc; assumption.
  - apply IHk; auto.
  - apply IHk; assumption.
Qed.

Lemma reachable_shows_only (Q : Ui -> Prop) (page : Page) (w : World) :
  page_ok (shows_only Q) page -> reachable page w -> Forall Q (shown w).
Proof.
  intros Hpage Hr. induction Hr as [| w ev Hr IH]; [constructor |].
  pose proof (reachable_world_ok _ page w Hpage Hr) as (Hs & Ht & Hc).
  destruct Hpage as [Heff Hact].
  destruct ev as [| | id | a | p outcome]; simpl.
  - apply exec_shows_only; assumption.
  - destruct (cleanup w) as [c |] eqn:E; [| exact IH].
    apply exec_shows_only; [exact (Hc c E) | exact IH].
  - destruct (timers w !! id) as [t |] eqn:E; [| exact IH].
    apply exec_shows_only; [exact (Ht _ _ E) | exact IH].
  - apply exec_shows_only; auto.
  - destruct (settle_promise_cases p outcome w)
      as [-> | [(ss & Hss & -> & _) | (s & ss & o & Hin & Hss & -> & _)]].
    + exact IH.
    + exact IH.
    + apply exec_shows_only; [| exact IH].
      eapply resumes_everywhere; eauto.
Qed.

Ltac side_not_loading :=
  idtac;
  lazymatch goal with
  | |- shows_only _ _ =>
      cbv beta iota delta [shows_only not_loading_on];
      first [exact I | discriminate | (let H := fresh in intros H; inversion H)]
  end.

(** The task page never switches the table's loading flag on: neither
    mounting, polling, refreshing nor any action shows
    [setLoading(true)], so the periodic refresh never blanks the table
    (the dataset and result pages switch it on at every fetch). *)
Theorem tasks_page_never_sets_loading (w : World) :
  reachable TasksPage.page w ->
  Forall not_loading_on (shown w).
Proof.
  apply reachable_shows_only. split.
  - unfold_handlers; walk side_not_loading.
  - intros a. destruct a; unfold_handlers; walk side_not_loading.
Qed.

Lemma tasks_page_never_sets_loading_witness :
  Forall not_loading_on
    (shown (step TasksPage.page
              (step TasksPage.page (step TasksPage.page initial_world Mount)
                 (Fire 1))
              (Settle 0 (Rejected (mkError None))))).
Proof.
  exact (tasks_page_never_sets_loading _
           (reach_step _ _ (Settle 0 (Rejected (mkError None)))
              (reach_step _ _ (Fire 1)
                 (reach_step _ _ Mount (reach_initial _))))).
Defined.

(** Unmounting a page cancels nothing that is in flight: every suspended
    handler stays suspended and resumes when its promise settles, and
    no operation is started. *)
Theorem unmount_keeps_handlers (page : Page) (w : World) :
  is_page page -> reachable page w ->
  suspended (step page w Unmount) = suspended w
  /\ started (step page w Unmount) = started w.
Proof.
  intros Hpage Hr. simpl.
  destruct (cleanup w) as [c |] eqn:Hc; [| split; reflexivity].
  destruct (exec_starts_nothing c (set_cleanup None w)) as (E1 & E2 & _).
  - exact (reachable_cleanup_silent page w Hpage Hr c Hc).
  - rewrite E1, E2. split; reflexivity.
Qed.

Lemma unmount_keeps_handlers_witness :
  let w := step TasksPage.page initial_world Mount in
  suspended (step TasksPage.page w Unmount) = suspended w
  /\ started (step TasksPage.page w Unmount) = started w.
Proof.
  exact (unmount_keeps_handlers TasksPage.page _ page_tasks
           (reach_step _ _ Mount (reach_initial _))).
Defined.

(** ** The dashboard's data *)

Lemma at_most_five_or (x : JsValue) :
  at_most_five x -> at_most_five (js_or x (JArr [])).
Proof.
  intros Hx. unfold js_or. destruct (truthy x); [exact Hx |].
  intros items H. injection H as <-. simpl. lia.
Qed.

Lemma everywhere_opt_slice_bounded (P : Prog -> Prop) v body throw k :
  everywhere P (throw TypeError) ->
  (forall x, at_most_five x -> everywhere P (body x throw k)) ->
  everywhere P (opt_slice_0_5 v body throw k).
Proof.
  intros Ht Hb. unfold opt_slice_0_5.
  destruct v as [| | | | | its | |]; try exact Ht; apply Hb;
    intros its' H; try discriminate H.
  injection H as <-. rewrite length_take. lia.
Qed.

Ltac side_recent :=
  idtac;
  lazymatch goal with
  | |- shows_only _ (Do (setState "setData" _) _) =>
      cbv beta iota delta [shows_only recent_bounded]; intros _;
      split; apply at_most_five_or; assumption
  | |- shows_only _ _ =>
      cbv beta iota delta [shows_only recent_bounded];
      first [exact I | (let H := fresh in intros H; discriminate H)]
  end.

Ltac walk_recent :=
  repeat lazymatch goal with
  | |- everywhere _ (opt_slice_0_5 _ _ _ _) =>
      apply everywhere_opt_slice_bounded
  | |- everywhere _ Return => apply ew_Return
  | |- everywhere _ (Do _ _) => apply ew_Do
  | |- everywhere _ (Await _ _) => apply ew_Await
  | |- everywhere _ (Spawn _ _) => apply ew_Spawn
  | |- everywhere _ (member _ _ _ _ _) => apply everywhere_member
  | |- everywhere _ (match ?x with _ => _ end) => destruct x
  | |- everywhere _ _ => progress cbv beta iota
  | |- forall _, _ => intro
  | |- True => exact I
  | |- _ => side_recent
  end.

(** Whatever the six responses hold, a dashboard record that gets
    stored lists at most five recent tasks and at most five recent
    results. *)
Theorem dashboard_keeps_five_recent (w : World) :
  reachable Dashboard.page w ->
  Forall recent_bounded (shown w).
Proof.
  apply reachable_shows_only. split.
  - unfold_handlers; walk_recent.
  - intros a. destruct a.
Qed.

Lemma dashboard_keeps_five_recent_witness :
  Forall recent_bounded
    (shown (run Dashboard.page
              [Mount;
               Settle 0 (Resolved (JObj []));
               Settle 1 (Resolved (JObj [("tasks",
                  JArr [JNull; JNull; JNull; JNull; JNull; JNull; JNull])]));
               Settle 2 (Resolved (JObj []));
               Settle 3 (Resolved (JObj []));
               Settle 4 (Resolved (JObj []));
               Settle 5 (Resolved (JObj []))]
              initial_world)).
Proof.
  apply dashboard_keeps_five_recent.
  repeat apply reach_step. apply reach_initial.
Defined.

(** The three counters on the dashboard never show zero: a count that
    is [0] or missing, and the state before any successful fetch
    ([data] is [null]), display the placeholders 3, 9 and 9; any other
    count displays as it is. *)
Theorem dashboard_cards_never_zero (data : JsValue) :
  truthy (DashboardCards.totalDatasets data) = true
  /\ truthy (DashboardCards.totalTasks data) = true
  /\ truthy (DashboardCards.totalResults data) = true
  /\ (truthy (opt_get data "totalDatasets") = false ->
      DashboardCards.totalDatasets data = js_int 3)
  /\ (truthy (opt_get data "totalTasks") = false ->
      DashboardCards.totalTasks data = js_int 9)
  /\ (truthy (opt_get data "totalResults") = false ->
      DashboardCards.totalResults data = js_int 9)
  /\ DashboardCards.totalDatasets JNull = js_int 3
  /\ DashboardCards.totalDatasets (JObj [("totalDatasets", js_int 0)])
     = js_int 3
  /\ DashboardCards.totalDatasets (JObj [("totalDatasets", js_int 12)])
     = js_int 12.
Proof.
  unfold DashboardCards.totalDatasets, DashboardCards.totalTasks,
    DashboardCards.totalResults, js_or.
  repeat split.
  - destruct (truthy (opt_get data "totalDatasets")) eqn:E; [exact E | reflexivity].
  - destruct (truthy (opt_get data "totalTasks")) eqn:E; [exact E | reflexivity].
  - destruct (truthy (opt_get data "totalResults")) eqn:E; [exact E | reflexivity].
  - intros ->. reflexivity.
  - intros ->. reflexivity.
  - intros ->. reflexivity.
Qed.

(** ** The order of doubles

    [<?] and [<=?] on doubles are the strict and the large order of the
    keys; NaN has no key and compares false with everything. *)

Lemma SFcompare_rank (a b : spec_float) :
  SFcompare a b
  = match rank a, rank b with
    | Some x, Some y => Some (lex3_compare x y)
    | _, _ => None
    end.
Proof.
  destruct a as [sa | sa | | sa ma ea], b as [sb | sb | | sb mb eb];
    try destruct sa; try destruct sb; try reflexivity.
  cbn [SFcompare rank lex3_compare].
  change (-1 ?= -1) with Eq. cbv beta iota.
  rewrite Z.compare_opp, (Z.compare_antisym ea eb).
  destruct (ea ?= eb); reflexivity.
Qed.

Lemma lex3_compare_spec (x y : Z * Z * Z) :
  CompareSpec (x = y) (lex_lt x y) (lex_lt y x) (lex3_compare x y).
Proof.
  destruct x as [[a b] c], y as [[a' b'] c']. unfold lex3_compare, lex_lt.
  destruct (Z.compare_spec a a'); [| constructor; lia | constructor; lia].
  destruct (Z.compare_spec b b'); [| constructor; lia | constructor; lia].
  destruct (Z.compare_spec c c'); constructor; [congruence | lia | lia].
Qed.

Lemma lex_lt_irrefl (a : Z * Z * Z) : ~ lex_lt a a.
Proof. destruct a as [[? ?] ?]. unfold lex_lt. lia. Qed.

Lemma lex_lt_asym (a b : Z * Z * Z) : lex_lt a b -> ~ lex_lt b a.
Proof. destruct a as [[? ?] ?], b as [[? ?] ?]. unfold lex_lt. lia. Qed.

Lemma ltb_key (x y : float) :
  (x <? y)%float = true
  <-> exists a b, key x = Some a /\ key y = Some b /\ lex_lt a b.
Proof.
  rewrite ltb_spec. unfold SFltb, key. rewrite SFcompare_rank.
  destruct (rank (Prim2SF x)) as [a |], (rank (Prim2SF y)) as [b |];
    try (split; [discriminate | intros (? & ? & ? & ? & ?); discriminate]).
  destruct (lex3_compare_spec a b) as [Heq | H | H].
  - split; [discriminate |]. intros (a' & b' & Ha & Hb & Hlt).
    injection Ha as <-. injection Hb as <-. subst b.
    now apply lex_lt_irrefl in Hlt.
  - split; [intros _; exists a, b; auto | reflexivity].
  - split; [discriminate |]. intros (a' & b' & Ha & Hb & Hlt).
    injection Ha as <-. injection Hb as <-. now apply lex_lt_asym in Hlt.
Qed.

Lemma leb_key (x y : float) :
  (x <=? y)%float = true
  <-> exists a b, key x = Some a /\ key y = Some b /\ ~ lex_lt b a.
Proof.
  rewrite leb_spec. unfold SFleb, key. rewrite SFcompare_rank.
  destruct (rank (Prim2SF x)) as [a |], (rank (Prim2SF y)) as [b |];
    try (split; [discriminate | intros (? & ? & ? & ? & ?); discriminate]).
  destruct (lex3_compare_spec a b) as [Heq | H | H].
  - split; [| reflexivity]. intros _. exists a, b. subst b.
    repeat split. apply lex_lt_irrefl.
  - split; [| reflexivity]. intros _. exists a, b.
    repeat split. now apply lex_lt_asym.
  - split; [discriminate |]. intros (a' & b' & Ha & Hb & Hlt).
    injection Ha as <-. injection Hb as <-. contradiction.
Qed.

Lemma is_nan_key (x : float) : PrimFloat.is_nan x = true <-> key x = None.
Proof.
  unfold PrimFloat.is_nan. rewrite FloatAxioms.eqb_spec. unfold SFeqb, key.
  rewrite SFcompare_rank. destruct (rank (Prim2SF x)) as [a |].
  - destruct (lex3_compare_spec a a) as [_ | H | H].
    + split; discriminate.
    + now apply lex_lt_irrefl in H.
    + now apply lex_lt_irrefl in H.
  - split; reflexivity.
Qed.

Lemma not_nan_key (x : float) :
  PrimFloat.is_nan x = false <-> exists a, key x = Some a.
Proof.
  rewrite <- Bool.not_true_iff_false, is_nan_key.
  destruct (key x) as [a |]; split; try congruence; eauto.
  intros [a H]. discriminate.
Qed.

Ltac float_keys :=
  repeat match goal with
  | H : (_ <? _)%float = true |- _ =>
      apply ltb_key in H; destruct H as (? & ? & ? & ? & ?)
  | H : (_ <=? _)%float = true |- _ =>
      apply leb_key in H; destruct H as (? & ? & ? & ? & ?)
  | H : PrimFloat.is_nan _ = false |- _ =>
      apply not_nan_key in H; destruct H as (? & ?)
  | H : PrimFloat.is_nan _ = true |- _ => apply is_nan_key in H
  | H : (_ <? _)%float = false |- _ =>
      apply Bool.not_true_iff_false in H; rewrite ltb_key in H
  | H : (_ <=? _)%float = false |- _ =>
      apply Bool.not_true_iff_false in H; rewrite leb_key in H
  end;
  repeat match goal with
  | H1 : key ?x = Some ?a, H2 : key ?x = Some ?b |- _ =>
      rewrite H1 in H2; injection H2 as <-
  | H1 : key ?x = Some _, H2 : key ?x = None |- _ =>
      rewrite H1 in H2; discriminate H2
  end.

Ltac lex_lia :=
  repeat match goal with
  | a : (Z * Z * Z)%type |- _ => destruct a as [[? ?] ?]
  end;
  unfold lex_lt in *; lia.

Lemma flt_not_le (x y : float) :
  (x <? y)%float = true -> (y <=? x)%float = false.
Proof.
  intros H. apply Bool.not_true_iff_false. intros H'. float_keys. lex_lia.
Qed.

Lemma fle_not_lt (x y : float) :
  (x <=? y)%float = true -> (y <? x)%float = false.
Proof.
  intros H. apply Bool.not_true_iff_false. intros H'. float_keys. lex_lia.
Qed.

Lemma f_total (x y : float) :
  PrimFloat.is_nan x = false -> PrimFloat.is_nan y = false ->
  (x <? y)%float = false -> (y <=? x)%float = true.
Proof.
  intros Hx Hy H. float_keys. apply leb_key. do 2 eexists.
  split; [eassumption |]. split; [eassumption |].
  intros Hlt. apply H. eauto.
Qed.

Lemma flt_not_nan (x y : float) :
  (x <? y)%float = true ->
  PrimFloat.is_nan x = false /\ PrimFloat.is_nan y = false.
Proof. intros H. float_keys. split; apply not_nan_key; eauto. Qed.

Lemma fle_not_nan (x y : float) :
  (x <=? y)%float = true ->
  PrimFloat.is_nan x = false /\ PrimFloat.is_nan y = false.
Proof. intros H. float_keys. split; apply not_nan_key; eauto. Qed.

Lemma flt_trans (x y z : float) :
  (x <? y)%float = true -> (y <? z)%float = true -> (x <? z)%float = true.
Proof.
  intros H1 H2. float_keys. apply ltb_key. do 2 eexists.
  split; [eassumption |]. split; [eassumption |]. lex_lia.
Qed.

Lemma fle_lt_trans (x y z : float) :
  (x <=? y)%float = true -> (y <? z)%float = true -> (x <? z)%float = true.
Proof.
  intros H1 H2. float_keys. apply ltb_key. do 2 eexists.
  split; [eassumption |]. split; [eassumption |]. lex_lia.
Qed.

Lemma flt_le_trans (x y z : float) :
  (x <? y)%float = true -> (y <=? z)%float = true -> (x <? z)%float = true.
Proof.
  intros H1 H2. float_keys. apply ltb_key. do 2 eexists.
  split; [eassumption |]. split; [eassumption |]. lex_lia.
Qed.

Lemma fle_trans (x y z : float) :
  (x <=? y)%float = true -> (y <=? z)%float = true -> (x <=? z)%float = true.
Proof.
  intros H1 H2. float_keys. apply leb_key. do 2 eexists.
  split; [eassumption |]. split; [eassumption |]. lex_lia.
Qed.

Lemma flt_le (x y : float) :
  (x <? y)%float = true -> (x <=? y)%float = true.
Proof.
  intros H. float_keys. apply leb_key. do 2 eexists.
  split; [eassumption |]. split; [eassumption |]. lex_lia.
Qed.

Lemma fltb_negb_leb (x y : float) :
  PrimFloat.is_nan x = false -> PrimFloat.is_nan y = false ->
  (x <? y)%float = negb (y <=? x)%float.
Proof.
  intros Hx Hy. destruct (x <? y)%float eqn:E.
  - now rewrite (flt_not_le _ _ E).
  - now rewrite (f_total _ _ Hx Hy E).
Qed.

Lemma nan_compares_false (x y : float) :
  PrimFloat.is_nan x = true ->
  (x <? y)%float = false /\ (y <? x)%float = false
  /\ (x <=? y)%float = false /\ (y <=? x)%float = false.
Proof.
  intros Hx. repeat split; apply Bool.not_true_iff_false; intros H;
    [apply flt_not_nan in H | apply flt_not_nan in H
     | apply fle_not_nan in H | apply fle_not_nan in H];
    destruct H; congruence.
Qed.

(** ** The results page: colors, counts, totals and the trend *)

Import ResultsView.

(** The color of a detection rate, band by band: green on [5, 15],
    orange on [2, 5) and on (15, 20], red below 2, above 20 and for
    NaN. *)
Theorem detection_rate_bands (rate : float) :
  (getDetectionRateColor rate = "error"
   <-> PrimFloat.is_nan rate = true
       \/ (rate <? 2)%float = true \/ (20 <? rate)%float = true)
  /\ (getDetectionRateColor rate = "warning"
      <-> ((2 <=? rate)%float = true /\ (rate <? 5)%float = true)
          \/ ((15 <? rate)%float = true /\ (rate <=? 20)%float = true))
  /\ (getDetectionRateColor rate = "success"
      <-> (5 <=? rate)%float = true /\ (rate <=? 15)%float = true).
Proof.
  unfold getDetectionRateColor.
  destruct (PrimFloat.is_nan rate) eqn:Nr.
  - destruct (nan_compares_false rate 2 Nr) as (L2 & _ & _ & G2).
    destruct (nan_compares_false rate 5 Nr) as (L5 & _ & _ & G5).
    destruct (nan_compares_false rate 15 Nr) as (_ & L15 & G15 & _).
    destruct (nan_compares_false rate 20 Nr) as (_ & L20 & G20 & _).
    rewrite L2, L5, L15, L20, G2, G5, G15, G20. cbn [andb].
    intuition (try congruence).
  - rewrite (fltb_negb_leb rate 2), (fltb_negb_leb 20 rate),
      (fltb_negb_leb rate 5), (fltb_negb_leb 15 rate) by (reflexivity || exact Nr).
    assert (T1 : (5 <=? rate)%float = true -> (2 <=? rate)%float = true).
    { apply fle_trans. reflexivity. }
    assert (T2 : (rate <=? 15)%float = true -> (rate <=? 20)%float = true).
    { intros H. apply (fle_trans _ _ _ H). reflexivity. }
    assert (T3 : (5 <=? rate)%float = false -> (rate <=? 15)%float = true).
    { intros H. apply flt_le. apply (flt_le_trans _ 5); [| reflexivity].
      rewrite fltb_negb_leb, H by (reflexivity || exact Nr). reflexivity. }
    destruct (5 <=? rate)%float; destruct (rate <=? 15)%float;
      destruct (2 <=? rate)%float; destruct (rate <=? 20)%float;
      try (specialize (T1 eq_refl); discriminate T1);
      try (specialize (T2 eq_refl); discriminate T2);
      try (specialize (T3 eq_refl); discriminate T3);
      cbn [andb negb];
      intuition (try congruence).
Qed.

Lemma fle_refl (x : float) :
  PrimFloat.is_nan x = false -> (x <=? x)%float = true.
Proof.
  intros H. float_keys. apply leb_key. do 2 eexists.
  split; [eassumption |]. split; [eassumption |]. apply lex_lt_irrefl.
Qed.

Lemma score_in_one_class (x : float) :
  (Nat.b2n (0.3 <? x)%float
   + Nat.b2n ((0.1 <? x) && (x <=? 0.3))%float
   + Nat.b2n (x <=? 0.1)%float
   + Nat.b2n (PrimFloat.is_nan x) = 1)%nat.
Proof.
  destruct (PrimFloat.is_nan x) eqn:Nx.
  - destruct (nan_compares_false x 0.3 Nx) as (_ & L3 & G3 & _).
    destruct (nan_compares_false x 0.1 Nx) as (_ & L1 & G1 & _).
    rewrite L3, L1, G1. reflexivity.
  - rewrite (fltb_negb_leb 0.3 x), (fltb_negb_leb 0.1 x)
      by (reflexivity || exact Nx).
    assert (T : (x <=? 0.1)%float = true -> (x <=? 0.3)%float = true).
    { intros H. apply (fle_trans _ _ _ H). reflexivity. }
    destruct (x <=? 0.3)%float; destruct (x <=? 0.1)%float;
      try (specialize (T eq_refl); discriminate T); reflexivity.
Qed.

Lemma length_filter_cons {A} (f : A -> bool) (a : A) (l : list A) :
  length (List.filter f (a :: l)) = (Nat.b2n (f a) + length (List.filter f l))%nat.
Proof. simpl. destruct (f a); reflexivity. Qed.

(** The three slices of the detection pie are disjoint and cover every
    result whose score is a number: together with the results whose
    score is NaN, which no slice counts, they add up to the number of
    results. *)
Theorem status_counts_partition (results : list Result) :
  (successCount results + warningCount results + errorCount results
   + length (List.filter (fun r => PrimFloat.is_nan (silhouette_score r)) results)
   = length results)%nat.
Proof.
  unfold successCount, warningCount, errorCount.
  induction results as [| r results IH]; [reflexivity |].
  rewrite !length_filter_cons. cbn [length].
  pose proof (score_in_one_class (silhouette_score r)). lia.
Qed.

Lemma quality_color_classes (x : float) :
  (0.3 <? x)%float
  = (String.eqb (ResultsPage.getQualityColor x) "success"
     || String.eqb (ResultsPage.getQualityColor x) "processing")
  /\ ((0.1 <? x) && (x <=? 0.3))%float
     = String.eqb (ResultsPage.getQualityColor x) "warning"
  /\ (x <=? 0.1)%float
     = (String.eqb (ResultsPage.getQualityColor x) "error"
        && negb (PrimFloat.is_nan x)).
Proof.
  unfold ResultsPage.getQualityColor.
  destruct (PrimFloat.is_nan x) eqn:Nx.
  - destruct (nan_compares_false x 0.7 Nx) as (_ & L7 & _ & _).
    destruct (nan_compares_false x 0.3 Nx) as (_ & L3 & G3 & _).
    destruct (nan_compares_false x 0.1 Nx) as (_ & L1 & G1 & _).
    rewrite L7, L3, L1, G1. repeat split.
  - rewrite (fltb_negb_leb 0.7 x), (fltb_negb_leb 0.3 x), (fltb_negb_leb 0.1 x)
      by (reflexivity || exact Nx).
    assert (T1 : (x <=? 0.1)%float = true -> (x <=? 0.3)%float = true).
    { intros H. apply (fle_trans _ _ _ H). reflexivity. }
    assert (T2 : (x <=? 0.3)%float = true -> (x <=? 0.7)%float = true).
    { intros H. apply (fle_trans _ _ _ H). reflexivity. }
    destruct (x <=? 0.7)%float; destruct (x <=? 0.3)%float;
      destruct (x <=? 0.1)%float;
      try (specialize (T1 eq_refl); discriminate T1);
      try (specialize (T2 eq_refl); discriminate T2);
      repeat split.
Qed.

Lemma best_of_in (first : Result) (rest : list Result) :
  best_of first rest ∈ first :: rest.
Proof.
  revert first. induction rest as [| c rest IH]; intros first.
  - apply list_elem_of_here.
  - cbn [best_of fold_left].
    change (best_of (if (silhouette_score first <? silhouette_score c)%float
                     then c else first) rest ∈ first :: c :: rest).
    destruct (silhouette_score first <? silhouette_score c)%float.
    + apply list_elem_of_further. apply IH.
    + specialize (IH first). apply elem_of_cons in IH as [-> | IH].
      * apply list_elem_of_here.
      * do 2 apply list_elem_of_further. exact IH.
Qed.

Lemma best_of_max (first : Result) (rest : list Result) :
  (forall r, r ∈ first :: rest -> PrimFloat.is_nan (silhouette_score r) = false) ->
  forall r, r ∈ first :: rest ->
    (silhouette_score r <=? silhouette_score (best_of first rest))%float = true.
Proof.
  revert first. induction rest as [| c rest IH]; intros first Hn r Hr.
  - apply list_elem_of_singleton in Hr. subst r. apply fle_refl, Hn, list_elem_of_here.
  - change (best_of first (c :: rest))
      with (best_of (if (silhouette_score first <? silhouette_score c)%float
                     then c else first) rest).
    assert (Nf : PrimFloat.is_nan (silhouette_score first) = false).
    { apply Hn, list_elem_of_here. }
    assert (Nc : PrimFloat.is_nan (silhouette_score c) = false).
    { apply Hn, list_elem_of_further, list_elem_of_here. }
    set (f' := if (silhouette_score first <? silhouette_score c)%float
               then c else first).
    assert (Hf' : (silhouette_score first <=? silhouette_score f')%float = true
                  /\ (silhouette_score c <=? silhouette_score f')%float = true
                  /\ (f' = first \/ f' = c)).
    { unfold f'. destruct (silhouette_score first <? silhouette_score c)%float eqn:E.
      - repeat split; [now apply flt_le | now apply fle_refl | now right].
      - repeat split; [now apply fle_refl | now apply f_total | now left]. }
    destruct Hf' as (H1 & H2 & H3).
    assert (IH' : forall r', r' ∈ f' :: rest ->
              (silhouette_score r' <=? silhouette_score (best_of f' rest))%float = true).
    { apply IH. intros r' Hr'. apply elem_of_cons in Hr' as [-> | Hr'].
      - destruct H3 as [-> | ->]; assumption.
      - apply Hn. do 2 apply list_elem_of_further. exact Hr'. }
    apply elem_of_cons in Hr as [-> | Hr].
    + apply (fle_trans _ _ _ H1). apply IH', list_elem_of_here.
    + apply elem_of_cons in Hr as [-> | Hr].
      * apply (fle_trans _ _ _ H2). apply IH', list_elem_of_here.
      * apply IH'. apply list_elem_of_further. exact Hr.
Qed.

(** The pie counts what the table shows: its first slice counts the
    results tagged [success] or [processing], its second the results
    tagged [warning], its third the results tagged [error] whose score
    is a number. *)
Theorem status_counts_follow_tags (results : list Result) :
  let color r := ResultsPage.getQualityColor (silhouette_score r) in
  successCount results
  = length (List.filter (fun r => String.eqb (color r) "success"
                                  || String.eqb (color r) "processing") results)
  /\ warningCount results
     = length (List.filter (fun r => String.eqb (color r) "warning") results)
  /\ errorCount results
     = length (List.filter
                 (fun r => String.eqb (color r) "error"
                           && negb (PrimFloat.is_nan (silhouette_score r)))
                 results).
Proof.
  intros color. unfold successCount, warningCount, errorCount, color.
  repeat split; f_equal; apply List.filter_ext; intros r;
    apply (quality_color_classes (silhouette_score r)).
Qed.

(** When no score is NaN, [totalStats.bestResult] is one of the results
    and no result has a larger score. *)
Theorem best_result_is_maximal (results : list Result) (stats : TotalStats) :
  totalStats results = Some stats ->
  (forall r, r ∈ results -> PrimFloat.is_nan (silhouette_score r) = false) ->
  bestResult stats ∈ results
  /\ forall r, r ∈ results ->
       (silhouette_score r <=? silhouette_score (bestResult stats))%float = true.
Proof.
  destruct results as [| first rest]; [discriminate |].
  intros [= <-] Hn. cbn [bestResult]. split.
  - apply best_of_in.
  - apply best_of_max, Hn.
Qed.

Lemma best_result_is_maximal_witness :
  let results := [mkResult 1 "DBSCAN" 0.2 3 3 97 1;
                  mkResult 2 "KmeansPlus" 0.8 5 5 95 2] in
  exists stats,
    totalStats results = Some stats
    /\ bestResult stats ∈ results
    /\ forall r, r ∈ results ->
         (silhouette_score r <=? silhouette_score (bestResult stats))%float
         = true.
Proof.
  intros results. eexists. split; [reflexivity |].
  apply best_result_is_maximal; [reflexivity |].
  intros r Hr. unfold results in Hr.
  apply elem_of_cons in Hr as [-> | Hr]; [reflexivity |].
  apply elem_of_cons in Hr as [-> | Hr]; [reflexivity |].
  apply elem_of_nil in Hr. destruct Hr.
Defined.

(** The trend chart shows the last ten results, or all of them when
    there are fewer, in their order: the days on the x axis count from
    1, and the two series are the bot and normal address counts of
    those results. *)
Theorem trend_shows_last_ten (results : list Result) :
  let recent := drop (length results - 10) results in
  length recent = Nat.min 10 (length results)
  /\ (exists older, results = older ++ recent)
  /\ trend_xAxis results
     = map (fun d => Number_toString (Z.of_nat d)) (seq 1 (length recent))
  /\ trend_bots results = map bot_addresses_count recent
  /\ trend_normal results = map normal_addresses_count recent.
Proof.
  intros recent. split; [unfold recent; rewrite length_drop; lia |].
  split; [exists (take (length results - 10) results); unfold recent;
          symmetry; apply take_drop |].
  unfold trend_xAxis, trend_bots, trend_normal, trendData. fold recent.
  generalize recent. clear. intros l.
  assert (G : forall (k : nat) (l : list Result),
    map day (imap (fun index result =>
                mkTrendPoint (k + index + 1) (bot_addresses_count result)
                             (normal_addresses_count result)) l)
    = seq (k + 1) (length l)
    /\ map bots (imap (fun index result =>
                mkTrendPoint (k + index + 1) (bot_addresses_count result)
                             (normal_addresses_count result)) l)
       = map bot_addresses_count l
    /\ map normal (imap (fun index result =>
                mkTrendPoint (k + index + 1) (bot_addresses_count result)
                             (normal_addresses_count result)) l)
       = map normal_addresses_count l).
  { clear. intros k l. revert k. induction l as [| r l IH]; intros k.
    - repeat split.
    - cbn [imap map length seq day bots normal].
      destruct (IH (S k)) as (D & B & N).
      assert (E : imap ((fun index result =>
                mkTrendPoint (k + index + 1) (bot_addresses_count result)
                             (normal_addresses_count result)) ∘ S) l
              = imap (fun index result =>
                mkTrendPoint (S k + index + 1) (bot_addresses_count result)
                             (normal_addresses_count result)) l).
      { apply imap_ext. intros i x _. cbn. f_equal. lia. }
      rewrite E, D, B, N. replace (k + 0 + 1)%nat with (k + 1)%nat by lia.
      replace (S k + 1)%nat with (S (k + 1)) by lia. repeat split. }
  destruct (G 0%nat l) as (D & B & N). cbn [Nat.add] in D, B, N.
  repeat split; [| exact B | exact N].
  rewrite <- D. rewrite <- !list_fmap_compose. reflexivity.
Qed.

(** ** The dashboard's pie *)

Import DashboardView.




(** ** Colors and buttons *)

Lemma lookup_or_apart {A} (table : list (string * A)) (fallback : A)
    (name : string) :
  forallb (fun k => negb (inherited k)) (map fst table) = true ->
  lookup_or table name fallback
  = if inherited name then Builtin name
    else Entry (default fallback (own table name)).
Proof.
  intros Hk. unfold lookup_or.
  destruct (own table name) as [a |] eqn:E; [| reflexivity].
  assert (I : inherited name = false); [| rewrite I; reflexivity].
  induction table as [| [k b] table IH]; [discriminate |].
  cbn [map fst forallb] in Hk. apply andb_prop in Hk as [Hk1 Hk2].
  cbn [own] in E. destruct (String.eqb_spec k name) as [<- | _].
  - now apply negb_true_iff in Hk1.
  - apply IH; assumption.
Qed.

(** The tag colors of algorithms, file types and data formats: no key
    of a color table is a member of [Object.prototype], so a name gets
    its color from the table, ['default'] when the table lacks it, and
    the built-in member (not a color) exactly when it is named like a
    member of [Object.prototype].  A dataset without a format gets
    ['default']. *)
Theorem colors_default_unless_inherited (name : string) :
  TasksView.getAlgorithmColor name
  = (if inherited name then Builtin name
     else Entry (default "default" (own TasksView.colors name)))
  /\ ResultsView.getAlgorithmColor name
     = (if inherited name then Builtin name
        else Entry (default "default" (own ResultsView.colors name)))
  /\ DatasetsView.getFileTypeColor name
     = (if inherited name then Builtin name
        else Entry (default "default" (own DatasetsView.fileTypeColors name)))
  /\ DatasetsView.getDataFormatColor (Some name)
     = (if inherited name then Builtin name
        else Entry (default "default" (own DatasetsView.dataFormatColors name)))
  /\ DatasetsView.getDataFormatColor None = Entry "default".
Proof.
  repeat split; try (apply lookup_or_apart; reflexivity).
  unfold DatasetsView.getDataFormatColor.
  replace (if String.eqb name "" then "" else name) with name.
  - apply lookup_or_apart; reflexivity.
  - destruct (String.eqb_spec name ""); congruence.
Qed.

Import TasksView.

(** A task row always offers the details button, and at most one of
    start, cancel and delete, whatever the status. *)
Theorem row_offers_one_action (status : string) :
  actions status = [ViewButton]
  \/ exists b, b <> ViewButton /\ actions status = [ViewButton; b].
Proof.
  unfold actions. cbn [existsb].
  destruct (String.eqb_spec status "pending") as [-> | _];
    [right; exists StartButton; split; [discriminate | reflexivity] |].
  destruct (String.eqb_spec status "running") as [-> | _];
    [right; exists CancelButton; split; [discriminate | reflexivity] |].
  destruct (String.eqb status "completed" || (String.eqb status "failed"
            || (String.eqb status "cancelled" || false))).
  - right; exists DeleteButton; split; [discriminate | reflexivity].
  - left; reflexivity.
Qed.
